(** * Shallow embedding of the demoapp Pulumi programs

    The repository declares cloud resources from Python programs run by the
    Pulumi engine.  We embed a program as a computation in a small
    error-and-log monad: evaluating the Python code either raises an
    exception or returns a value, and every resource constructor called on
    the way appends its declaration (type token, logical name, property
    bag) to the log.  Python values, including unresolved [pulumi.Output]s,
    are the inductive [val]. *)

From Stdlib Require Import String Ascii List ZArith Bool Lia.
Import ListNotations.
Open Scope string_scope.
Set Warnings "-register-all".
Set Warnings "-notation-overridden".

(* ------------------------------------------------------------------ *)
(** ** Python values *)

Module Py.

Inductive val : Type :=
| VNone
| VBool (b : bool)
| VInt (z : Z)
| VStr (s : string)
| VList (xs : list val)
| VDict (kvs : list (string * val))
(** an output property [attr] of a resource [rty]/[rname], not resolved
    when the program runs (a [pulumi.Output]) *)
| VOut (rty rname attr : string)
(** [x.apply(fn)] on an unresolved output *)
| VApplyOut (fn : string) (x : val)
(** the result of a library call whose value is not computed here
    ([json.dumps], [yaml.dump], the [.json] of a policy document) *)
| VCall (fn : string) (args : list val).

Inductive PyError : Type :=
| TypeError (msg : string)
| KeyError (key : string)
| AttributeError (msg : string)
| IndexError (msg : string)
| ConfigMissingError (key : string)
| ConfigTypeError (key : string).

(** Python truthiness ([bool(v)]); an [Output] object is truthy. *)
Definition truthy (v : val) : bool :=
  match v with
  | VNone => false
  | VBool b => b
  | VInt z => negb (Z.eqb z 0)
  | VStr s => negb (String.eqb s "")
  | VList xs => negb (Nat.eqb (length xs) 0)
  | VDict kvs => negb (Nat.eqb (length kvs) 0)
  | VOut _ _ _ | VApplyOut _ _ | VCall _ _ => true
  end.

Fixpoint assoc {A} (k : string) (l : list (string * A)) : option A :=
  match l with
  | [] => None
  | (k', v) :: l' => if String.eqb k k' then Some v else assoc k l'
  end.

(** decimal rendering of a natural number *)
Fixpoint digits_aux (fuel n : nat) (acc : string) : string :=
  match fuel with
  | O => acc
  | S f =>
      let acc' := String (ascii_of_nat (48 + Nat.modulo n 10)) acc in
      if Nat.ltb n 10 then acc' else digits_aux f (Nat.div n 10) acc'
  end.

Definition nat_str (n : nat) : string := digits_aux (S n) n "".

Definition Z_str (z : Z) : string :=
  if Z.ltb z 0 then "-" ++ nat_str (Z.to_nat (- z)) else nat_str (Z.to_nat z).

Fixpoint join (sep : string) (l : list string) : string :=
  match l with
  | [] => ""
  | [s] => s
  | s :: l' => s ++ sep ++ join sep l'
  end.

(** [str(v)], as used by f-strings.  Strings of strings are not quoted
    inside containers with Python's escaping rules; the programs only
    format strings and integers. *)
Fixpoint py_str (v : val) : string :=
  match v with
  | VNone => "None"
  | VBool true => "True"
  | VBool false => "False"
  | VInt z => Z_str z
  | VStr s => s
  | VList xs => "[" ++ join ", " (map py_str xs) ++ "]"
  | VDict kvs =>
      "{" ++ join ", " (map (fun kv => fst kv ++ ": " ++ py_str (snd kv)) kvs) ++ "}"
  | VOut _ _ _ | VApplyOut _ _ =>
      "Calling __str__ on an Output[T] is not supported."
  | VCall fn _ => fn
  end.

(** [str.replace(old, new)]: every non-overlapping occurrence of [old],
    scanning from the left, is replaced by [new]. *)
Fixpoint replace_fuel (fuel : nat) (old new s : string) : string :=
  match fuel with
  | O => s
  | S f =>
      match s with
      | EmptyString => EmptyString
      | String c s' =>
          if String.prefix old s
          then new ++ replace_fuel f old new
                      (substring (String.length old)
                                 (String.length s - String.length old) s)
          else String c (replace_fuel f old new s')
      end
  end.

(** with an empty [old], Python inserts [new] around every character *)
Fixpoint interleave (new s : string) : string :=
  match s with
  | EmptyString => new
  | String c s' => new ++ String c (interleave new s')
  end.

Definition py_str_replace (s old new : string) : string :=
  if String.eqb old "" then interleave new s
  else replace_fuel (String.length s) old new s.

(** [pat in s] *)
Fixpoint contains (pat s : string) : bool :=
  match s with
  | EmptyString => String.prefix pat s
  | String _ s' => String.prefix pat s || contains pat s'
  end.

End Py.

(* ------------------------------------------------------------------ *)
(** ** Program evaluation: exceptions and the resource log *)

Module Eval.
Import Py.

(** A resource declaration: Pulumi type token, logical name, the keyword
    arguments of the constructor, and [additional_secret_outputs]. *)
Record res : Type := mkRes {
  rtype : string;
  rname : string;
  rprops : list (string * val);
  rsecret_outputs : list string
}.

Definition M (A : Type) : Type := list res -> (PyError + A) * list res.

Definition ret {A} (x : A) : M A := fun log => (inr x, log).
Definition raise {A} (e : PyError) : M A := fun log => (inl e, log).
Definition bind {A B} (c : M A) (k : A -> M B) : M B :=
  fun log =>
    match c log with
    | (inl e, log') => (inl e, log')
    | (inr x, log') => k x log'
    end.

Notation "x <- c ;; k" := (bind c (fun x => k))
  (at level 61, c at next level, right associativity).
Notation "c ;; k" := (bind c (fun _ : unit => k))
  (at level 61, right associativity).

(** calling a resource constructor registers it *)
Definition declare_secret (ty name : string) (props : list (string * val))
    (secret_outputs : list string) : M unit :=
  fun log => (inr tt, app log [mkRes ty name props secret_outputs]).

Definition declare (ty name : string) (props : list (string * val)) : M unit :=
  declare_secret ty name props [].

Definition when (b : bool) (c : M unit) : M unit := if b then c else ret tt.

Fixpoint mapM {A B} (f : A -> M B) (l : list A) : M (list B) :=
  match l with
  | [] => ret []
  | x :: l' => y <- f x ;; ys <- mapM f l' ;; ret (y :: ys)
  end.

(** [for i, x in enumerate(l): f(i, x)] *)
Fixpoint for_enum {A} (f : nat -> A -> M unit) (i : nat) (l : list A) : M unit :=
  match l with
  | [] => ret tt
  | x :: l' => f i x ;; for_enum f (S i) l'
  end.

Definition run {A} (c : M A) : (PyError + A) * list res := c [].

(** Python built-ins on [val] *)
Definition py_len (v : val) : M nat :=
  match v with
  | VList xs => ret (length xs)
  | VDict kvs => ret (length kvs)
  | VStr s => ret (String.length s)
  | _ => raise (TypeError "object has no len()")
  end.

Definition py_iter (v : val) : M (list val) :=
  match v with
  | VList xs => ret xs
  | VDict kvs => ret (map (fun kv => VStr (fst kv)) kvs)
  | _ => raise (TypeError "object is not iterable")
  end.

Definition py_items (v : val) : M (list (string * val)) :=
  match v with
  | VDict kvs => ret kvs
  | _ => raise (AttributeError "object has no attribute 'items'")
  end.

(** [d.get(k, default)] *)
Definition py_get (v : val) (k : string) (default : val) : M val :=
  match v with
  | VDict kvs => ret (match assoc k kvs with Some x => x | None => default end)
  | _ => raise (AttributeError "object has no attribute 'get'")
  end.

(** [d[k]] *)
Definition py_getitem (v : val) (k : string) : M val :=
  match v with
  | VDict kvs => match assoc k kvs with Some x => ret x | None => raise (KeyError k) end
  | _ => raise (TypeError "object is not subscriptable")
  end.

(** [{**a, **b}] *)
Definition py_merge (a b : val) : M val :=
  match a, b with
  | VDict x, VDict y =>
      ret (VDict (y ++ filter (fun kv => match assoc (fst kv) y with
                                         | Some _ => false | None => true end) x))
  | _, _ => raise (TypeError "argument after ** must be a mapping")
  end.

(** [x.apply(f)] is a method of outputs only: on any other value Python
    raises [AttributeError] when it evaluates [x.apply] *)
Definition has_apply (x : val) : M unit :=
  match x with
  | VOut _ _ _ | VApplyOut _ _ => ret tt
  | _ => raise (AttributeError "object has no attribute 'apply'")
  end.

(** the value [x.apply(f)] stands for.  The program evaluates it only after
    [has_apply x], on an output, which keeps the callback [fn]
    symbolically; the second branch is what the engine computes once the
    output has resolved to the plain value [x]: the callback applied to it *)
Definition out_apply (fn : string) (f : val -> val) (x : val) : val :=
  match x with
  | VOut _ _ _ | VApplyOut _ _ => VApplyOut fn x
  | _ => f x
  end.

(** a generated resource constructor raises on a required property that
    is [None] *)
Definition require_prop (p : string) (v : val) : M unit :=
  match v with
  | VNone => raise (TypeError ("Missing required property '" ++ p ++ "'"))
  | _ => ret tt
  end.

(** Binding keyword arguments to the parameters of a Python function:
    [params] lists the parameters in order with their default values.
    An unknown keyword raises at once; then every parameter without an
    argument and without default is reported missing.  The result is the
    instance's attribute dictionary (the [Args] constructors assign every
    parameter to an attribute of the same name). *)
Definition bind_kwargs (fname : string) (params : list (string * option val))
    (kwargs : list (string * val)) : M (list (string * val)) :=
  match filter (fun kv => match assoc (fst kv) params with
                          | Some _ => false | None => true end) kwargs with
  | (k, _) :: _ =>
      raise (TypeError (fname ++ "() got an unexpected keyword argument '" ++ k ++ "'"))
  | [] =>
      let missing := filter (fun p => match assoc (fst p) kwargs, snd p with
                                      | None, None => true | _, _ => false end) params in
      match missing with
      | (p, _) :: _ =>
          raise (TypeError (fname ++ "() missing required positional argument: '" ++ p ++ "'"))
      | [] =>
          ret (map (fun p => (fst p, match assoc (fst p) kwargs, snd p with
                                     | Some v, _ => v
                                     | None, Some d => d
                                     | None, None => VNone
                                     end)) params)
      end
  end.

(** [obj.attr] on an attribute dictionary *)
Definition getattr (obj : list (string * val)) (a : string) : M val :=
  match assoc a obj with
  | Some v => ret v
  | None => raise (AttributeError ("object has no attribute '" ++ a ++ "'"))
  end.

(** [s.replace(old, new)] on a value *)
Definition py_replace (v : val) (old new : string) : M val :=
  match v with
  | VStr s => ret (VStr (py_str_replace s old new))
  | _ => raise (AttributeError "object has no attribute 'replace'")
  end.

(** [pat in s] on two values *)
Definition py_in (pat s : val) : M bool :=
  match pat, s with
  | VStr p, VStr t => ret (contains p t)
  | _, _ => raise (TypeError "'in <string>' requires string as left operand")
  end.

(** [o.attr] on an object given by its attribute dictionary *)
Definition py_attr (o : val) (a : string) : M val :=
  match o with
  | VDict kvs => match assoc a kvs with
                 | Some v => ret v
                 | None => raise (AttributeError ("object has no attribute '" ++ a ++ "'"))
                 end
  | _ => raise (AttributeError ("object has no attribute '" ++ a ++ "'"))
  end.

End Eval.

(* ------------------------------------------------------------------ *)
(** ** [src/infra/modules/app/app.py] *)

Module App.
Import Py Eval.

(** [KubernetesServiceArgs.__init__] parameters, in order, with defaults *)
Definition KubernetesServiceArgs_params : list (string * option val) :=
  [("base_tags", None); ("app_name", None); ("container_ports", None);
   ("environment_variables", None); ("image", None); ("kube_issuer", None);
   ("namespace", None); ("openid_connector", None);
   ("public_load_balancer", None); ("secrets_data", None);
   ("service_permissions", None); ("replicas", None);
   ("hostname_list", None); ("ingress_port", Some (VInt 80))].

Definition KubernetesServiceArgs (kwargs : list (string * val))
    : M (list (string * val)) :=
  bind_kwargs "KubernetesServiceArgs.__init__" KubernetesServiceArgs_params kwargs.

(** [lambda ki: f"{ki.replace('https://', '')}:sub"] *)
Definition issuer_sub (ki : val) : val :=
  match ki with
  | VStr s => VStr (py_str_replace s "https://" "" ++ ":sub")
  | _ => VCall "AttributeError: object has no attribute 'replace'" [ki]
  end.

(** [lambda ns: f"system:serviceaccount:{ns}:{self.name}"] *)
Definition sa_subject (name : string) (ns : val) : val :=
  VStr ("system:serviceaccount:" ++ py_str ns ++ ":" ++ name).

(** the [GetPolicyDocumentStatementConditionArgs] of lines 89-95 *)
Definition trust_condition (name : string) (kube_issuer namespace : val) : val :=
  VDict [("test", VStr "StringEquals");
         ("variable", out_apply "issuer_sub" issuer_sub kube_issuer);
         ("values", VList [out_apply "sa_subject" (sa_subject name) namespace])].

(** the statement of [service_role_assume_policy] (lines 77-99) *)
Definition assume_statement (name : string) (kube_issuer namespace openid_connector : val)
    : val :=
  VDict [("effect", VStr "Allow");
         ("principals", VList [VDict [("identifiers", VList [openid_connector]);
                                      ("type", VStr "Federated")]]);
         ("actions", VList [VStr "sts:AssumeRoleWithWebIdentity"]);
         ("conditions", VList [trust_condition name kube_issuer namespace])].

(** [service_role_assume_policy.json] *)
Definition service_role_assume_policy_json (name : string)
    (kube_issuer namespace openid_connector : val) : val :=
  VCall "aws.iam.get_policy_document.json"
        [VList [assume_statement name kube_issuer namespace openid_connector]].

Definition meta (name : string) (namespace : val) (labelled : bool) : val :=
  VDict ((if labelled then [("labels", VDict [("app.kubernetes.io/name", VStr name)])]
          else []) ++
         [("name", VStr name); ("namespace", namespace)]).

(** [k8s.autoscaling.v2.MetricSpecArgs] of lines 231-250 *)
Definition utilization_metric (resource : string) : val :=
  VDict [("type", VStr "Resource");
         ("resource", VDict [("name", VStr resource);
                             ("target", VDict [("type", VStr "Utilization");
                                               ("average_value", VStr "60")])])].

(** the [HorizontalPodAutoscalerSpecArgs] of lines 222-252 *)
Definition hpa_spec (name : string) : val :=
  VDict [("scale_target_ref", VDict [("api_version", VStr "apps/v1");
                                     ("kind", VStr "Deployment");
                                     ("name", VStr name)]);
         ("min_replicas", VInt 1);
         ("max_replicas", VInt 6);
         ("metrics", VList [utilization_metric "cpu"; utilization_metric "memory"])].

Definition port_name (p : val) : val := VStr (py_str p ++ "-tcp").

(** the loop of lines 325-341 *)
Definition record_step (name : string) (public_load_balancer : val)
    (nrec : nat) (rec : val) : M unit :=
  create <- py_get rec "create_record" (VBool true) ;;
  when (truthy create)
    (rname <- py_getitem rec "name" ;;
     declare "aws:route53/record:Record" (name ++ "-record" ++ nat_str nrec)
       [("zone_id", VOut "aws:route53/getZone" "cloudlan.net" "zone_id");
        ("name", rname); ("type", VStr "CNAME"); ("ttl", VInt 300);
        ("records", VList [public_load_balancer])]).

(** [KubernetesService.__init__] *)
Definition KubernetesService (name : string) (args : list (string * val)) : M unit :=
  declare "KubernetesService" name [] ;;
  base_tags <- getattr args "base_tags" ;;
  app_name <- getattr args "app_name" ;;
  container_ports <- getattr args "container_ports" ;;
  environment_variables <- getattr args "environment_variables" ;;
  image <- getattr args "image" ;;
  kube_issuer <- getattr args "kube_issuer" ;;
  namespace <- getattr args "namespace" ;;
  openid_connector <- getattr args "openid_connector" ;;
  public_load_balancer <- getattr args "public_load_balancer" ;;
  secrets_data <- getattr args "secrets_data" ;;
  service_permissions <- getattr args "service_permissions" ;;
  hostname_list <- getattr args "hostname_list" ;;
  ingress_port <- getattr args "ingress_port" ;;
  replicas <- getattr args "replicas" ;;
  n_perms <- py_len service_permissions ;;
  when (Nat.ltb 0 n_perms)
    (declare "aws:iam/policy:Policy" (name ++ "-policy")
       [("policy", VCall "aws.iam.get_policy_document.json" [service_permissions]);
        ("tags", base_tags)]) ;;
  (* [self.kube_issuer.apply(...)] and [self.namespace.apply(...)], lines 91 and 94 *)
  has_apply kube_issuer ;;
  has_apply namespace ;;
  declare "aws:iam/role:Role" (name ++ "-role")
    [("assume_role_policy",
      service_role_assume_policy_json name kube_issuer namespace openid_connector);
     ("name", VStr (name ++ "-role")); ("tags", base_tags)] ;;
  declare "kubernetes:core/v1:ServiceAccount" (name ++ "-sa")
    [("metadata", VDict [("annotations",
                          VDict [("eks.amazonaws.com/role-arn",
                                  VOut "aws:iam/role:Role" (name ++ "-role") "arn")]);
                         ("name", VStr name); ("namespace", namespace)])] ;;
  n_perms' <- py_len service_permissions ;;
  when (Nat.ltb 0 n_perms')
    (declare "aws:iam/rolePolicyAttachment:RolePolicyAttachment" (name ++ "-roleattach")
       [("role", VOut "aws:iam/role:Role" (name ++ "-role") "name");
        ("policy_arn", VOut "aws:iam/policy:Policy" (name ++ "-policy") "arn")]) ;;
  declare "kubernetes:core/v1:Secret" (name ++ "-secrets")
    [("metadata", meta name namespace false); ("string_data", secrets_data)] ;;
  env <- py_items environment_variables ;;
  ports <- py_iter container_ports ;;
  declare "kubernetes:apps/v1:Deployment" (name ++ "-deployment")
    [("metadata", meta name namespace true);
     ("spec", VDict
        [("replicas", replicas);
         ("selector", VDict [("match_labels", VDict [("app.kubernetes.io/name", VStr name)])]);
         ("template", VDict
            [("metadata", VDict [("labels", VDict [("app.kubernetes.io/name", VStr name)])]);
             ("spec", VDict
                [("containers", VList [VDict
                    [("name", app_name);
                     ("env", VList (map (fun kv => VDict [("name", VStr (fst kv));
                                                         ("value", snd kv)]) env));
                     ("env_from", VList [VDict [("secret_ref", VDict
                         [("name", VOut "kubernetes:core/v1:Secret" (name ++ "-secrets")
                                        "metadata.name")])]]);
                     ("image", image); ("image_pull_policy", VStr "Always");
                     ("ports", VList (map (fun p => VDict [("name", port_name p);
                                                          ("container_port", p)]) ports))]]);
                 ("service_account_name",
                  VOut "kubernetes:core/v1:ServiceAccount" (name ++ "-sa") "metadata.name")])])])] ;;
  declare "kubernetes:autoscaling/v2:HorizontalPodAutoscaler" (name ++ "-app-hpa")
    [("metadata", meta name namespace true); ("spec", hpa_spec name)] ;;
  ports' <- py_iter container_ports ;;
  declare "kubernetes:core/v1:Service" (name ++ "-service")
    [("metadata", meta name namespace true);
     ("spec", VDict [("ports", VList (map (fun p => VDict [("port", p); ("name", port_name p)])
                                          ports'));
                     ("selector", VDict [("app.kubernetes.io/name", VStr name)])])] ;;
  n_hosts <- py_len hostname_list ;;
  when (Nat.ltb 0 n_hosts)
    (hs <- py_iter hostname_list ;;
     host_names <- mapM (fun h => hn <- py_getitem h "name" ;; ret ("`" ++ py_str hn ++ "`")) hs ;;
     declare "kubernetes:traefik.containo.us/v1alpha1:IngressRoute" (name ++ "-ing")
       [("metadata", meta name namespace false);
        ("spec", VDict
           [("entryPoints", VList [VStr "web"]);
            ("routes", VList [VDict
               [("kind", VStr "Rule");
                ("match", VStr ("Host(" ++ join "," host_names ++ ")"));
                ("priority", VInt 10);
                ("services", VList [VDict
                   [("kind", VStr "Service"); ("name", VStr name);
                    ("namespace", namespace); ("passHostHeader", VBool true);
                    ("port", ingress_port); ("scheme", VStr "http")]])]])])] ;;
     recs <- py_iter hostname_list ;;
     for_enum (record_step name public_load_balancer) 0 recs).

End App.

(* ------------------------------------------------------------------ *)
(** ** [pulumi.Config] and [pulumi.StackReference] as the programs use them

    A stack's configuration maps keys to raw strings.  [get_object] parses
    the string as JSON and [get_int] as an integer; the two parsers of the
    Python library are parameters of the development. *)

Module Config.
Import Py Eval.

Section Config.
Variable json_loads : string -> option val.
Variable parse_int : string -> option Z.
Variable cfg : string -> option string.

Definition config_get (k : string) : M val :=
  ret (match cfg k with Some s => VStr s | None => VNone end).

Definition config_require (k : string) : M val :=
  match cfg k with Some s => ret (VStr s) | None => raise (ConfigMissingError k) end.

Definition config_get_int (k : string) : M val :=
  match cfg k with
  | None => ret VNone
  | Some s => match parse_int s with
              | Some z => ret (VInt z)
              | None => raise (ConfigTypeError k)
              end
  end.

Definition config_get_object (k : string) : M val :=
  match cfg k with
  | None => ret VNone
  | Some s => match json_loads s with
              | Some v => ret v
              | None => raise (ConfigTypeError k)
              end
  end.

(** [get_bool(k, default)]: Pulumi accepts [true], [True], [false] and
    [False] *)
Definition config_get_bool (k : string) (default : bool) : M val :=
  match cfg k with
  | None => ret (VBool default)
  | Some s =>
      if existsb (String.eqb s) ["true"; "True"] then ret (VBool true)
      else if existsb (String.eqb s) ["false"; "False"] then ret (VBool false)
      else raise (ConfigTypeError k)
  end.

End Config.

Definition StackReference_ty : string := "pulumi:pulumi:StackReference".

Definition StackReference (stack : string) : M unit :=
  declare StackReference_ty stack [("name", VStr stack)].

(** [ref.require_output(k)]: a deferred reference, resolved by the engine *)
Definition require_output (stack k : string) : val := VOut StackReference_ty stack k.

End Config.

(* ------------------------------------------------------------------ *)
(** ** [src/infra/app/__main__.py] *)

Module AppStack.
Import Py Eval Config App.

Definition k8s_stack : string := "organization/eks/eks-demo".
Definition db_stack : string := "organization/db/db-demo".

Section AppStack.
Variable json_loads : string -> option val.
Variable parse_int : string -> option Z.
Variable cfg : string -> option string.

(** the module body, for the stack named [envName] *)
Definition main (envName : string) : M unit :=
  StackReference k8s_stack ;;
  StackReference db_stack ;;
  let BASE_TAGS := VDict [("Environment", VStr envName)] in
  declare "kubernetes:core/v1:Namespace" (envName ++ "-ns")
    [("metadata", VDict [("name", VStr "demoapp")])] ;;
  let ns_name := VOut "kubernetes:core/v1:Namespace" (envName ++ "-ns") "metadata.name" in
  let default_secrets :=
    VDict [("DB_USERNAME", require_output db_stack "db_admin_username");
           ("DB_PASSWORD", require_output db_stack "db_admin_password")] in
  (* keyword arguments, evaluated left to right *)
  environment_variables <- config_get_object json_loads cfg "app_environment_variables" ;;
  hostname_list <- config_get_object json_loads cfg "app_hostnames" ;;
  image <- config_require cfg "app_image" ;;
  max_replicas <- config_get_int parse_int cfg "app_max_replicas" ;;
  min_replicas <- config_get_int parse_int cfg "app_min_replicas" ;;
  app_secrets <- config_get_object json_loads cfg "app_secrets" ;;
  secrets_data <- py_merge default_secrets app_secrets ;;
  args <- KubernetesServiceArgs
    [("base_tags", BASE_TAGS);
     ("app_name", VStr "demoapp");
     ("container_ports", VList [VInt 3000]);
     ("environment_variables", environment_variables);
     ("hostname_list", hostname_list);
     ("image", image);
     ("ingress_port", VInt 3000);
     ("kube_issuer", require_output k8s_stack "cluster_issuer");
     ("max_replicas", max_replicas);
     ("min_replicas", min_replicas);
     ("namespace", ns_name);
     ("openid_connector", require_output k8s_stack "cluster_openid_connector");
     ("public_load_balancer", require_output k8s_stack "cluster_public_load_balancer");
     ("secrets_data", secrets_data);
     ("service_permissions", VList [])] ;;
  KubernetesService (envName ++ "-app") args.

End AppStack.

End AppStack.

(* ------------------------------------------------------------------ *)
(** ** [src/infra/modules/db/db.py] *)

Module Db.
Import Py Eval.

Definition RdsDbArgs_params : list (string * option val) :=
  [("base_tags", None); ("cidr_blocks", None); ("major_version", None);
   ("private_subnets", None); ("vpc_id", None); ("zone_name", None);
   ("is_prod_database", Some (VBool false));
   ("serverless_max_capacity", Some (VInt 3));
   ("storage_size", Some (VInt 20))].

Definition RdsDbArgs (kwargs : list (string * val)) : M (list (string * val)) :=
  bind_kwargs "RdsDbArgs.__init__" RdsDbArgs_params kwargs.

Definition Cluster_ty : string := "aws:rds/cluster:Cluster".
Definition RandomPassword_ty : string := "random:index/randomPassword:RandomPassword".
Definition SecretVersion_ty : string := "aws:secretsmanager/secretVersion:SecretVersion".

(** [self.db_password.result] *)
Definition password_result (name : string) : val :=
  VOut RandomPassword_ty (name ++ "-db-mysql-password") "result".

(** [lambda p: json.dumps({"username": "root", "password": p})] *)
Definition proxy_credentials (p : val) : val :=
  VCall "json.dumps" [VDict [("username", VStr "root"); ("password", p)]].

(** [db_versions] *)
Definition db_versions : list (string * string) := [("8.0", "3.06")].

(** [RdsDb.__init__] *)
Definition RdsDb (name : string) (args : list (string * val)) : M unit :=
  declare "RdsDb" name [] ;;
  base_tags <- getattr args "base_tags" ;;
  cidr_blocks <- getattr args "cidr_blocks" ;;
  is_prod_database <- getattr args "is_prod_database" ;;
  major_version <- getattr args "major_version" ;;
  private_subnets <- getattr args "private_subnets" ;;
  storage_size <- getattr args "storage_size" ;;
  vpc_id <- getattr args "vpc_id" ;;
  zone_name <- getattr args "zone_name" ;;
  let zone_id := VOut "aws:route53/getZone:getZone" (py_str zone_name) "zone_id" in
  let latest_cert_id := VOut "aws:rds/getCertificate:getCertificate" "rds-ca-rsa2048-g1" "id" in
  for_enum (fun _ v =>
    declare "aws:rds/parameterGroup:ParameterGroup" (name ++ "-db-mysql-" ++ fst v)
      [("family", VStr ("aurora-mysql" ++ fst v));
       ("name", VStr ("mysql" ++ py_str_replace (fst v) "." ""));
       ("tags", base_tags)]) 0 db_versions ;;
  declare "aws:rds/subnetGroup:SubnetGroup" (name ++ "-db-subnet")
    [("description", VStr "Mysql db subnet"); ("subnet_ids", private_subnets);
     ("tags", base_tags)] ;;
  declare "aws:ec2/securityGroup:SecurityGroup" (name ++ "-db-security-group")
    [("description", VStr "main db access");
     ("ingress", VList [VDict [("cidr_blocks", cidr_blocks); ("protocol", VStr "tcp");
                               ("from_port", VInt 3306); ("to_port", VInt 3306)]]);
     ("egress", VList [VDict [("protocol", VStr "-1"); ("from_port", VInt 0);
                              ("to_port", VInt 0);
                              ("cidr_blocks", VList [VStr "0.0.0.0/0"])]]);
     ("vpc_id", vpc_id); ("tags", base_tags)] ;;
  declare_secret RandomPassword_ty (name ++ "-db-mysql-password")
    [("length", VInt 32); ("special", VBool false)] ["result"] ;;
  serverless_max_capacity <- getattr args "serverless_max_capacity" ;;
  declare Cluster_ty (name ++ "-db-cluster")
    [("apply_immediately", VBool true);
     ("allow_major_version_upgrade", VBool true);
     ("cluster_identifier_prefix", VStr (name ++ "-db-cluster"));
     ("database_name", VStr "demoapp");
     ("db_subnet_group_name", VOut "aws:rds/subnetGroup:SubnetGroup" (name ++ "-db-subnet") "name");
     ("engine", VStr "aurora-mysql");
     ("engine_mode", VStr "provisioned");
     ("engine_version", VStr "8.0.mysql_aurora.3.06.0");
     ("final_snapshot_identifier",
      if truthy is_prod_database then VStr (name ++ "-db-cluster") else VNone);
     ("master_username", VStr "root");
     ("master_password", password_result name);
     ("skip_final_snapshot", VBool (negb (truthy is_prod_database)));
     ("serverlessv2_scaling_configuration",
      VDict [("min_capacity", VInt 2); ("max_capacity", serverless_max_capacity)]);
     ("vpc_security_group_ids",
      VList [VOut "aws:ec2/securityGroup:SecurityGroup" (name ++ "-db-security-group") "id"]);
     ("storage_encrypted", VBool true);
     ("tags", base_tags)] ;;
  declare "aws:rds/clusterInstance:ClusterInstance" (name ++ "-db-instance")
    [("apply_immediately", VBool true);
     ("ca_cert_identifier", latest_cert_id);
     ("cluster_identifier", VOut Cluster_ty (name ++ "-db-cluster") "id");
     ("instance_class", VStr "db.serverless");
     ("engine", VOut Cluster_ty (name ++ "-db-cluster") "engine");
     ("engine_version", VOut Cluster_ty (name ++ "-db-cluster") "engine_version");
     ("tags", base_tags)] ;;
  declare "aws:secretsmanager/secret:Secret" (name ++ "-db-proxy-secret")
    [("description", VStr "Secret for the RDS proxy"); ("tags", base_tags)] ;;
  declare SecretVersion_ty (name ++ "-db-proxy-secret")
    [("secret_id", VOut "aws:secretsmanager/secret:Secret" (name ++ "-db-proxy-secret") "id");
     ("secret_string", out_apply "proxy_credentials" proxy_credentials (password_result name))] ;;
  declare "aws:iam/role:Role" (name ++ "-db-proxy-role")
    [("name", VStr (name ++ "-db-proxy-role"));
     ("assume_role_policy", VCall "json.dumps"
        [VDict [("Version", VStr "2012-10-17");
                ("Statement", VList [VDict [("Action", VStr "sts:AssumeRole");
                                            ("Effect", VStr "Allow");
                                            ("Sid", VStr "RoleAssume");
                                            ("Principal", VDict [("Service", VStr "rds.amazonaws.com")])]])]]);
     ("inline_policies", VList [VDict
        [("name", VStr "SecretManagerAccess");
         ("policy", VApplyOut "secret_manager_access_policy"
                      (VOut "aws:secretsmanager/secret:Secret" (name ++ "-db-proxy-secret") "arn"))]])] ;;
  declare "aws:rds/proxy:Proxy" (name ++ "-db-proxy")
    [("name", VStr (name ++ "-db-proxy")); ("debug_logging", VBool true);
     ("engine_family", VStr "MYSQL"); ("idle_client_timeout", VInt 1800);
     ("require_tls", VBool false);
     ("role_arn", VOut "aws:iam/role:Role" (name ++ "-db-proxy-role") "arn");
     ("vpc_security_group_ids",
      VList [VOut "aws:ec2/securityGroup:SecurityGroup" (name ++ "-db-security-group") "id"]);
     ("vpc_subnet_ids", private_subnets);
     ("auths", VList [VDict [("auth_scheme", VStr "SECRETS"); ("description", VStr "db-creds");
                             ("iam_auth", VStr "DISABLED");
                             ("secret_arn", VOut "aws:secretsmanager/secret:Secret"
                                                 (name ++ "-db-proxy-secret") "arn")]]);
     ("tags", base_tags)] ;;
  declare "aws:rds/proxyDefaultTargetGroup:ProxyDefaultTargetGroup"
    (name ++ "-db-proxy-default-target-group")
    [("db_proxy_name", VOut "aws:rds/proxy:Proxy" (name ++ "-db-proxy") "name");
     ("connection_pool_config",
      VDict [("connection_borrow_timeout", VInt 120); ("max_connections_percent", VInt 100);
             ("max_idle_connections_percent", VInt 50);
             ("session_pinning_filters", VList [VStr "EXCLUDE_VARIABLE_SETS"])])] ;;
  declare "aws:rds/proxyTarget:ProxyTarget" (name ++ "-db-proxy-target-group")
    [("db_proxy_name", VOut "aws:rds/proxy:Proxy" (name ++ "-db-proxy") "name");
     ("db_cluster_identifier", VOut Cluster_ty (name ++ "-db-cluster") "cluster_identifier");
     ("target_group_name", VOut "aws:rds/proxyDefaultTargetGroup:ProxyDefaultTargetGroup"
                               (name ++ "-db-proxy-default-target-group") "name")] ;;
  declare "aws:rds/proxyEndpoint:ProxyEndpoint" (name ++ "-db-proxy-endpoint")
    [("db_proxy_endpoint_name", VStr (name ++ "-db-proxy-endpoint"));
     ("db_proxy_name", VOut "aws:rds/proxy:Proxy" (name ++ "-db-proxy") "name");
     ("vpc_subnet_ids", private_subnets);
     ("vpc_security_group_ids",
      VList [VOut "aws:ec2/securityGroup:SecurityGroup" (name ++ "-db-security-group") "id"]);
     ("target_role", VStr "READ_WRITE"); ("tags", base_tags)] ;;
  declare "aws:route53/record:Record" (name ++ "-db-record")
    [("zone_id", zone_id); ("name", VStr "db"); ("type", VStr "CNAME"); ("ttl", VInt 300);
     ("records", VList [VOut Cluster_ty (name ++ "-db-cluster") "endpoint"])] ;;
  declare "aws:route53/record:Record" (name ++ "-db-proxy-record")
    [("zone_id", zone_id); ("name", VStr "db-proxy"); ("type", VStr "CNAME"); ("ttl", VInt 300);
     ("records", VList [VOut "aws:rds/proxyEndpoint:ProxyEndpoint"
                             (name ++ "-db-proxy-endpoint") "endpoint"])].

End Db.

(* ------------------------------------------------------------------ *)
(** ** [src/infra/db/__main__.py] *)

Module DbStack.
Import Py Eval Config Db.

Definition vpc_stack : string := "organization/vpc/vpc-demo".
Definition k8s_stack : string := "organization/eks/eks-demo".

Section DbStack.
Variable json_loads : string -> option val.
Variable cfg : string -> option string.

(** the module body; its result is the list of [pulumi.export]s *)
Definition main (envName : string) : M (list (string * val)) :=
  StackReference vpc_stack ;;
  StackReference k8s_stack ;;
  let BASE_TAGS := VDict [("Environment", VStr envName)] in
  cidr_blocks <- config_get_object json_loads cfg "cidr_blocks" ;;
  major_version <- config_require cfg "db_major_version" ;;
  storage_size <- config_get cfg "db_storage_size" ;;
  args <- RdsDbArgs
    [("base_tags", BASE_TAGS);
     ("cidr_blocks", cidr_blocks);
     ("major_version", major_version);
     ("private_subnets", require_output vpc_stack "private_subnet_ids");
     ("storage_size", storage_size);
     ("vpc_id", require_output vpc_stack "vpc_id");
     ("zone_name", VStr "cloudlan.net")] ;;
  RdsDb (envName ++ "-db") args ;;
  ret [("db_admin_username", VOut Cluster_ty (envName ++ "-db" ++ "-db-cluster") "master_username");
       ("db_admin_password", password_result (envName ++ "-db"))].

End DbStack.

End DbStack.

(* ------------------------------------------------------------------ *)
(** ** [src/infra/modules/svcs/services.py] *)

Module Svcs.
Import Py Eval.

Definition ServicesArgs_params : list (string * option val) :=
  [("base_tags", None); ("ebs_csi_chart_version", None); ("kube_users", None);
   ("public_alb", None); ("vpc_id", None); ("worker_role_arn", None);
   ("traefik_chart_version", Some (VStr "v23.2.0"))].

Definition ServicesArgs (kwargs : list (string * val)) : M (list (string * val)) :=
  bind_kwargs "ServicesArgs.__init__" ServicesArgs_params kwargs.

(** [s.split('/')[-1]] *)
Fixpoint last_segment (s acc : string) : string :=
  match s with
  | EmptyString => acc
  | String c s' => if Ascii.eqb c "/"%char then last_segment s' "" else last_segment s' (acc ++ String c "")
  end.

Definition split_last (user : val) : M val :=
  match user with
  | VStr s => ret (VStr (last_segment s ""))
  | _ => raise (AttributeError "object has no attribute 'split'")
  end.

(** the second, fixed entry of [node_cluster_map_roles] *)
Definition ci_role_entry : val :=
  VDict [("rolearn", VStr "arn:aws:iam::389169665533:role/ci-role");
         ("username", VStr "ci-user");
         ("groups", VList [VStr "system:masters"])].

Definition node_role_entry (worker_role : val) : val :=
  VDict [("rolearn", worker_role);
         ("username", VStr "system:node:{{EC2PrivateDNSName}}");
         ("groups", VList [VStr "system:bootstrappers"; VStr "system:nodes"])].

(** [ServicesResources.get_node_roles] (a static method) *)
Definition get_node_roles (worker_role : val) : val :=
  VCall "yaml.dump" [VList [node_role_entry worker_role; ci_role_entry]].

Definition ConfigMap_ty : string := "kubernetes:core/v1:ConfigMap".

(** [ServicesResources.__init__] *)
Definition ServicesResources (name : string) (args : list (string * val)) : M unit :=
  declare "ServicesResources" name [] ;;
  base_tags <- getattr args "base_tags" ;;
  ebs_csi_chart_version <- getattr args "ebs_csi_chart_version" ;;
  kube_users <- getattr args "kube_users" ;;
  public_alb <- getattr args "public_alb" ;;
  traefik_chart_version <- getattr args "traefik_chart_version" ;;
  vpc_id <- getattr args "vpc_id" ;;
  worker_role_arn <- getattr args "worker_role_arn" ;;
  users <- py_iter kube_users ;;
  node_cluster_map_users <- mapM (fun user =>
      uname <- split_last user ;;
      ret (VDict [("userarn", user); ("username", uname);
                  ("groups", VList [VStr "system:masters"])])) users ;;
  has_apply worker_role_arn ;;
  declare ConfigMap_ty (name ++ "-kauth")
    [("metadata", VDict [("name", VStr "aws-auth"); ("namespace", VStr "kube-system")]);
     ("data", VDict [("mapRoles", out_apply "get_node_roles" get_node_roles worker_role_arn);
                     ("mapUsers", VCall "yaml.dump" [VList node_cluster_map_users])])] ;;
  declare "kubernetes:yaml:ConfigFile" (name ++ "-metric-server")
    [("file", VStr "metric_server.yaml")] ;;
  declare "kubernetes:helm.sh/v3:Release" (name ++ "-ebs-csi")
    [("chart", VStr "aws-ebs-csi-driver"); ("namespace", VStr "kube-system");
     ("repository_opts", VDict [("repo", VStr "https://kubernetes-sigs.github.io/aws-ebs-csi-driver")]);
     ("version", ebs_csi_chart_version); ("values", VDict [])] ;;
  declare "kubernetes:core/v1:Namespace" (name ++ "-traefik-ns")
    [("metadata", VDict [("name", VStr "traefik")])] ;;
  declare "kubernetes:helm.sh/v3:Release" (name ++ "-traefik")
    [("chart", VStr "traefik");
     ("namespace", VOut "kubernetes:core/v1:Namespace" (name ++ "-traefik-ns") "metadata.name");
     ("repository_opts", VDict [("repo", VStr "https://traefik.github.io/charts/")]);
     ("version", traefik_chart_version);
     ("values", VDict
        [("ingressClass", VDict [("enabled", VBool true); ("isDefaultClass", VBool false)]);
         ("ingressRoute", VDict [("dashboard", VDict [("enabled", VBool false)])]);
         ("ports", VDict [("traefik", VDict [("expose", VBool true); ("exposedPort", VInt 9000);
                                             ("nodePort", VInt 30900)]);
                          ("web", VDict [("expose", VBool true); ("nodePort", VInt 32080)])]);
         ("service", VDict [("type", VStr "NodePort")])])] ;;
  declare "aws:ecr/repository:Repository" (name ++ "-ecr-repository")
    [("name", VStr "demoapp")] ;;
  declare "aws:ecr/lifecyclePolicy:LifecyclePolicy" (name ++ "-lifecycle-policy")
    [("repository", VOut "aws:ecr/repository:Repository" (name ++ "-ecr-repository") "name");
     ("policy", VCall "json.dumps" [VDict [("rules", VList [VDict
        [("rulePriority", VInt 1); ("description", VStr "Expire images count more than 30");
         ("selection", VDict [("tagStatus", VStr "any"); ("countType", VStr "imageCountMoreThan");
                              ("countNumber", VInt 30)]);
         ("action", VDict [("type", VStr "expire")])]])]])].

(** [s.split('.')[0]]: the text before the first ['.'] *)
Fixpoint first_segment (s : string) : string :=
  match s with
  | EmptyString => EmptyString
  | String c s' => if Ascii.eqb c "."%char then EmptyString else String c (first_segment s')
  end.

Definition split_first (v : val) : M val :=
  match v with
  | VStr s => ret (VStr (first_segment s))
  | _ => raise (AttributeError "object has no attribute 'split'")
  end.

(** [ServicesResources.create_records] (lines 213-228) *)
Definition create_records (name : string) (public_alb : val) (h : val) : M unit :=
  create <- py_get h "create_records" (VBool true) ;;
  when (truthy create)
    (hname <- py_get h "name" VNone ;;
     nice_name <- split_first hname ;;
     let zone_name := "cloudlan.net" in
     let hz_zone_id := VOut "aws:route53/getZone:getZone" zone_name "zone_id" in
     hname' <- py_getitem h "name" ;;
     rname <- py_replace hname' ("." ++ zone_name) "" ;;
     declare "aws:route53/record:Record" (name ++ "-" ++ py_str nice_name ++ "-record")
       [("name", rname); ("records", VList [public_alb]); ("ttl", VInt 300);
        ("type", VStr "CNAME"); ("zone_id", hz_zone_id)]).

End Svcs.

(* ------------------------------------------------------------------ *)
(** ** [src/infra/vpc/__main__.py] *)

Module VpcStack.
Import Py Eval Config.

(** The handles a [Vpc] component exposes to the stack program. *)
Record VpcObj : Type := mkVpcObj {
  vpc_id : val;
  public_subnet_ids : list val;
  private_subnet_ids : list val;
  nat_public_ips : list val
}.

Section Vpc.
(** validity of an IPv4 CIDR block *)
Variable valid_cidr : string -> bool.

(** Modelled from the spec: the [Vpc] component and its
    [enableFlowLoggingToCloudWatchLogs] method, imported by the network
    stack from a [vpc] module whose source is not in the repository.
    Section 4.1: given a base address block and the zones it produces
    "paired public/private subnets per zone, NAT egress for private
    subnets, and optional flow-log export"; "invalid CIDR or empty zone
    list is a fatal declaration-time error".  One NAT gateway, with its
    elastic address, is declared per zone, for the private subnet of that
    zone. *)
Definition Vpc (name base_cidr : string) (zones : list string) : M VpcObj :=
  if negb (valid_cidr base_cidr) then raise (TypeError "invalid CIDR block") else
  match zones with
  | [] => raise (TypeError "empty availability zone list")
  | _ =>
    declare "aws:ec2/vpc:Vpc" name [("cidr_block", VStr base_cidr)] ;;
    for_enum (fun i z =>
      declare "aws:ec2/subnet:Subnet" (name ++ "-public-" ++ nat_str i)
        [("availability_zone", VStr z); ("map_public_ip_on_launch", VBool true)] ;;
      declare "aws:ec2/subnet:Subnet" (name ++ "-private-" ++ nat_str i)
        [("availability_zone", VStr z)] ;;
      declare "aws:ec2/eip:Eip" (name ++ "-nat-" ++ nat_str i) [] ;;
      declare "aws:ec2/natGateway:NatGateway" (name ++ "-nat-gateway-" ++ nat_str i)
        [("allocation_id", VOut "aws:ec2/eip:Eip" (name ++ "-nat-" ++ nat_str i) "id");
         ("subnet_id", VOut "aws:ec2/subnet:Subnet" (name ++ "-public-" ++ nat_str i) "id")])
      0 zones ;;
    let idx := seq 0 (length zones) in
    ret (mkVpcObj (VOut "aws:ec2/vpc:Vpc" name "id")
           (map (fun i => VOut "aws:ec2/subnet:Subnet" (name ++ "-public-" ++ nat_str i) "id") idx)
           (map (fun i => VOut "aws:ec2/subnet:Subnet" (name ++ "-private-" ++ nat_str i) "id") idx)
           (map (fun i => VOut "aws:ec2/eip:Eip" (name ++ "-nat-" ++ nat_str i) "public_ip") idx))
  end.

(** Modelled from the spec: [Vpc.enableFlowLoggingToCloudWatchLogs]
    ("optional flow-log export"). *)
Definition enableFlowLoggingToCloudWatchLogs (name : string) (traffic : string) : M unit :=
  declare "aws:ec2/flowLog:FlowLog" (name ++ "-flow-log") [("traffic_type", VStr traffic)].

Variable cfg : string -> option string.

(** [zones = [zoneList.names[i] for i in (0, -1)]] *)
Definition first_and_last (names : list string) : M (list string) :=
  match names with
  | [] => raise (IndexError "list index out of range")
  | n0 :: _ => ret [n0; last names n0]
  end.

(** the module body; [available] is [aws.get_availability_zones(state="available").names];
    the result is the list of [pulumi.export]s *)
Definition main (envName : string) (available : list string) : M (list (string * val)) :=
  zones <- first_and_last available ;;
  base_cidr <- config_require cfg "vpc_cidr" ;;
  _create_s3_endpoint <- config_get_bool cfg "create_s3_endpoint" true ;;
  vpc <- Vpc (envName ++ "-vpc") (py_str base_cidr) zones ;;
  enableFlowLoggingToCloudWatchLogs (envName ++ "-vpc") "ALL" ;;
  vpc_cidr <- config_require cfg "vpc_cidr" ;;
  ret [("vpc_id", vpc_id vpc);
       ("vpc_cidr", vpc_cidr);
       ("public_subnet_ids", VList (public_subnet_ids vpc));
       ("private_subnet_ids", VList (private_subnet_ids vpc));
       ("nat_gateway_ips", VList (nat_public_ips vpc))].

End Vpc.

End VpcStack.

(* ------------------------------------------------------------------ *)
(** ** [src/infra/services/__main__.py] *)

Module ServicesStack.
Import Py Eval Config Svcs.

Definition vpc_stack : string := "organization/vpc/vpc-demo".
Definition k8s_stack : string := "organization/eks/eks-demo".

Section ServicesStack.
Variable json_loads : string -> option val.
Variable cfg : string -> option string.

(** the module body *)
Definition main (envName : string) : M unit :=
  StackReference vpc_stack ;;
  StackReference k8s_stack ;;
  let BASE_TAGS := VDict [("Environment", VStr envName)] in
  ebs_csi_chart_version <- config_require cfg "eks_ebs_csi_chart_version" ;;
  kube_users <- config_get_object json_loads cfg "kube_users" ;;
  args <- ServicesArgs
    [("base_tags", BASE_TAGS);
     ("ebs_csi_chart_version", ebs_csi_chart_version);
     ("kube_users", kube_users);
     ("public_alb", require_output k8s_stack "cluster_public_load_balancer");
     ("private_subnets", require_output vpc_stack "private_subnet_ids");
     ("worker_role_arn", require_output k8s_stack "cluster_worker_role");
     ("vpc_id", require_output vpc_stack "vpc_id")] ;;
  ServicesResources (envName ++ "-svcs") args.

End ServicesStack.

End ServicesStack.

(* ------------------------------------------------------------------ *)
(** ** [src/infra/modules/eks/auth.py] *)

Module Auth.
Import Py Eval Svcs.

Definition KAuthArgs_params : list (string * option val) :=
  [("admin_users", None); ("worker_role_arn", None)].

Definition KAuthArgs (kwargs : list (string * val)) : M (list (string * val)) :=
  bind_kwargs "KAuthArgs.__init__" KAuthArgs_params kwargs.

(** [KAuth.get_node_role] (a static method): the one entry of the worker
    role, the same dictionary as [ServicesResources]' first entry *)
Definition get_node_role (r : val) : val := VList [node_role_entry r].

(** [lambda r: yaml.dump(self.get_node_role(r))] *)
Definition node_role_yaml (r : val) : val := VCall "yaml.dump" [get_node_role r].

(** [KAuth.__init__] *)
Definition KAuth (name : string) (args : list (string * val)) : M unit :=
  declare "Kauth" name [] ;;
  admin_users <- getattr args "admin_users" ;;
  users <- py_iter admin_users ;;
  entries <- mapM (fun u =>
      uname <- split_last u ;;
      ret (VDict [("userarn", u); ("username", uname);
                  ("groups", VList [VStr "system:masters"])])) users ;;
  worker_role_arn <- getattr args "worker_role_arn" ;;
  has_apply worker_role_arn ;;
  declare ConfigMap_ty (name ++ "-auth-cm")
    [("metadata", VDict [("name", VStr "aws-auth"); ("namespace", VStr "kube-system")]);
     ("data", VDict [("mapRoles", out_apply "node_role_yaml" node_role_yaml worker_role_arn);
                     ("mapUsers", VCall "yaml.dump" [VList entries])])].

End Auth.

(* ------------------------------------------------------------------ *)
(** ** [src/infra/modules/certs/certificates.py] *)

Module Certs.
Import Py Eval.

Definition CertArgs_params : list (string * option val) :=
  [("alt_names", None); ("base_tags", None); ("domain_name", None);
   ("zone_name", Some (VStr "cloudlan.net"))].

Definition CertArgs (kwargs : list (string * val)) : M (list (string * val)) :=
  bind_kwargs "CertArgs.__init__" CertArgs_params kwargs.

Definition Certificate_ty : string := "aws:acm/certificate:Certificate".

(** [Certs.__init__] as the program runs it; the records of
    [iterate_records] are declared later, when the certificate's
    [domain_validation_options] resolve *)
Definition Certs (name : string) (args : list (string * val)) : M unit :=
  declare "Certs" name [] ;;
  alt_names0 <- getattr args "alt_names" ;;
  let alt_names := if truthy alt_names0 then alt_names0 else VList [] in
  base_tags <- getattr args "base_tags" ;;
  domain_name <- getattr args "domain_name" ;;
  zone_name <- getattr args "zone_name" ;;
  declare Certificate_ty (name ++ "-certificate")
    [("domain_name", domain_name); ("subject_alternative_names", alt_names);
     ("tags", base_tags); ("validation_method", VStr "DNS")].

(** one iteration of the loop of [iterate_records] (lines 76-91), for the
    validation option [f] at index [num] *)
Definition dvo_step (name : string) (zone_name zone_id : val) (num : nat) (f : val) : M unit :=
  rrn <- py_attr f "resource_record_name" ;;
  here <- py_in zone_name rrn ;;
  when here
    (rname <- py_replace rrn ("." ++ py_str zone_name ++ ".") "" ;;
     rtype <- py_attr f "resource_record_type" ;;
     rvalue <- py_attr f "resource_record_value" ;;
     declare "aws:route53/record:Record" (name ++ "-dvo-records-" ++ nat_str num)
       [("allow_overwrite", VBool true); ("name", rname); ("ttl", VInt 300);
        ("type", rtype); ("records", VList [rvalue]); ("zone_id", zone_id)]).

(** [iterate_records(dvo)], run on the resolved validation options; the
    list of record handles it returns is not used by the program *)
Definition iterate_records (name : string) (zone_name zone_id : val) (dvo : list val) : M unit :=
  for_enum (dvo_step name zone_name zone_id) 0 dvo.

End Certs.

(* ------------------------------------------------------------------ *)
(** ** [src/infra/modules/eks/eks.py] *)

Module Eks.
Import Py Eval.

Definition EksArgs_params : list (string * option val) :=
  [("base_tags", None); ("default_certificate_arn", None); ("eks_version", None);
   ("private_subnet_ids", None); ("public_subnet_ids", None); ("vpc_id", None);
   ("worker_image_id", None); ("worker_key_name", None);
   ("private_endpoint", Some (VBool false)); ("public_endpoint", Some (VBool false));
   ("worker_instance_type", Some (VStr "t2.medium"));
   ("worker_max_size", Some (VInt 10)); ("worker_min_size", Some (VInt 2))].

Definition EksArgs (kwargs : list (string * val)) : M (list (string * val)) :=
  bind_kwargs "EksArgs.__init__" EksArgs_params kwargs.

Definition Role_ty : string := "aws:iam/role:Role".
Definition Attachment_ty : string := "aws:iam/rolePolicyAttachment:RolePolicyAttachment".
Definition SecurityGroup_ty : string := "aws:ec2/securityGroup:SecurityGroup".
Definition SecurityGroupRule_ty : string := "aws:ec2/securityGroupRule:SecurityGroupRule".
Definition EksCluster_ty : string := "aws:eks/cluster:Cluster".
Definition Oidc_ty : string := "aws:iam/openIdConnectProvider:OpenIdConnectProvider".
Definition LoadBalancer_ty : string := "aws:lb/loadBalancer:LoadBalancer".
Definition TargetGroup_ty : string := "aws:lb/targetGroup:TargetGroup".
Definition Listener_ty : string := "aws:lb/listener:Listener".
Definition InstanceProfile_ty : string := "aws:iam/instanceProfile:InstanceProfile".
Definition LaunchTemplate_ty : string := "aws:ec2/launchTemplate:LaunchTemplate".
Definition Asg_ty : string := "aws:autoscaling/group:Group".

(** [d.keys()] *)
Definition py_keys (v : val) : M (list string) :=
  match v with
  | VDict kvs => ret (map fst kvs)
  | _ => raise (AttributeError "object has no attribute 'keys'")
  end.

(** [json.dumps] of a trust policy letting [service] assume the role *)
Definition service_trust (service : string) : val :=
  VCall "json.dumps"
    [VDict [("Version", VStr "2012-10-17");
            ("Statement", VList [VDict [("Action", VStr "sts:AssumeRole");
                                        ("Principal", VDict [("Service", VStr service)]);
                                        ("Effect", VStr "Allow"); ("Sid", VStr "")]])]].

Definition attach (rname role policy_arn : string) : M unit :=
  declare Attachment_ty rname
    [("role", VOut Role_ty role "id"); ("policy_arn", VStr policy_arn)].

(** [aws.ec2.SecurityGroupIngressArgs] / [SecurityGroupEgressArgs] *)
Definition sg_rule (from to : Z) (protocol : string) (description : option string) : val :=
  VDict ([("cidr_blocks", VList [VStr "0.0.0.0/0"]); ("from_port", VInt from);
          ("to_port", VInt to); ("protocol", VStr protocol)] ++
         match description with Some d => [("description", VStr d)] | None => [] end).

(** [s.split('/', 1)[1]]: the text after the first ['/'], if there is one *)
Fixpoint after_first_slash (s : string) : option string :=
  match s with
  | EmptyString => None
  | String c s' => if Ascii.eqb c "/"%char then Some s' else after_first_slash s'
  end.

(** the lambda of lines 597-617, applied to the provider's arn [o] *)
Definition autoscaler_assume_policy (o : val) : val :=
  match o with
  | VStr s =>
      match after_first_slash s with
      | Some rest =>
          VCall "aws.iam.get_policy_document.json"
            [VList [VDict
               [("effect", VStr "Allow");
                ("principals", VList [VDict [("type", VStr "Federated");
                                             ("identifiers", VList [o])]]);
                ("actions", VList [VStr "sts:AssumeRoleWithWebIdentity"]);
                ("conditions", VList [VDict
                   [("test", VStr "StringEquals");
                    ("variable", VStr (rest ++ ":sub"));
                    ("values", VList [VStr "system:serviceaccount:kube-system:cluster-autoscaler"])]])]]]
      | None => VCall "IndexError: list index out of range" [o]
      end
  | _ => VCall "AttributeError: object has no attribute 'split'" [o]
  end.

Definition asg_tag (k v : val) : val :=
  VDict [("key", k); ("value", v); ("propagate_at_launch", VBool true)].

(** [EKS.__init__] *)
Definition EKS (name : string) (args : list (string * val)) : M unit :=
  declare "EKS" name [] ;;
  base_tags <- getattr args "base_tags" ;;
  default_certificate_arn <- getattr args "default_certificate_arn" ;;
  eks_version <- getattr args "eks_version" ;;
  private_endpoint <- getattr args "private_endpoint" ;;
  private_subnet_ids <- getattr args "private_subnet_ids" ;;
  public_endpoint <- getattr args "public_endpoint" ;;
  public_subnet_ids <- getattr args "public_subnet_ids" ;;
  worker_image_id <- getattr args "worker_image_id" ;;
  worker_instance_type <- getattr args "worker_instance_type" ;;
  worker_key_name <- getattr args "worker_key_name" ;;
  worker_max_size <- getattr args "worker_max_size" ;;
  worker_min_size <- getattr args "worker_min_size" ;;
  vpc_id <- getattr args "vpc_id" ;;
  (* IAM *)
  declare Role_ty "eks-iam-role"
    [("assume_role_policy", service_trust "eks.amazonaws.com"); ("tags", base_tags)] ;;
  attach "eks-service-policy-attachment" "eks-iam-role"
    "arn:aws:iam::aws:policy/AmazonEKSServicePolicy" ;;
  attach "eks-cluster-policy-attachment" "eks-iam-role"
    "arn:aws:iam::aws:policy/AmazonEKSClusterPolicy" ;;
  declare Role_ty "ec2-nodegroup-iam-role"
    [("assume_role_policy", service_trust "ec2.amazonaws.com"); ("tags", base_tags)] ;;
  attach "eks-workernode-policy-attachment" "ec2-nodegroup-iam-role"
    "arn:aws:iam::aws:policy/AmazonEKSWorkerNodePolicy" ;;
  attach "eks-cni-policy-attachment" "ec2-nodegroup-iam-role"
    "arn:aws:iam::aws:policy/AmazonEKS_CNI_Policy" ;;
  attach "ec2-container-ro-policy-attachment" "ec2-nodegroup-iam-role"
    "arn:aws:iam::aws:policy/AmazonEC2ContainerRegistryReadOnly" ;;
  attach "ec2-ebs-csi-policy-attachment" "ec2-nodegroup-iam-role"
    "arn:aws:iam::aws:policy/service-role/AmazonEBSCSIDriverPolicy" ;;
  attach "ssm-session-policy-attachment" "ec2-nodegroup-iam-role"
    "arn:aws:iam::aws:policy/AmazonSSMManagedInstanceCore" ;;
  (* Security Groups *)
  sg_tags <- py_merge (VDict [("Name", VStr "eks-cluster-sg")]) base_tags ;;
  declare SecurityGroup_ty "eks-cluster-sg"
    [("vpc_id", vpc_id);
     ("description", VStr "Allow all HTTP(s) traffic to EKS Cluster");
     ("tags", sg_tags);
     ("ingress", VList [sg_rule 443 443 "tcp"
                          (Some "Allow pods to communicate with the cluster API Server.");
                        sg_rule 80 80 "tcp" (Some "Allow internet access to pods")])] ;;
  (* EKS Cluster *)
  let cluster_name := name ++ "-eks-cluster" in
  cluster_tags <- py_merge (VDict [("Name", VStr cluster_name)]) base_tags ;;
  declare EksCluster_ty "eks-cluster"
    [("enabled_cluster_log_types",
      VList [VStr "api"; VStr "audit"; VStr "authenticator"; VStr "controllerManager";
             VStr "scheduler"]);
     ("name", VStr cluster_name);
     ("role_arn", VOut Role_ty "eks-iam-role" "arn");
     ("tags", cluster_tags);
     ("vpc_config", VDict
        [("public_access_cidrs", VList [VStr "0.0.0.0/0"]);
         ("endpoint_private_access", VBool (truthy private_endpoint));
         ("endpoint_public_access", VBool (truthy public_endpoint));
         ("security_group_ids", VList [VOut SecurityGroup_ty "eks-cluster-sg" "id"]);
         ("subnet_ids", private_subnet_ids)]);
     ("version", eks_version)] ;;
  let issuer := VOut EksCluster_ty "eks-cluster" "identities[0].oidcs[0].issuer" in
  let cluster_certificate :=
    VApplyOut "tls.get_certificate" (VOut EksCluster_ty "eks-cluster" "identities") in
  declare Oidc_ty (name ++ "-oidc-provider")
    [("client_id_lists", VList [VStr "sts.amazonaws.com"]);
     ("thumbprint_lists",
      VList [VApplyOut "certificates[0].sha1_fingerprint" cluster_certificate]);
     ("url", issuer); ("tags", base_tags)] ;;
  (* Load Balancer *)
  declare SecurityGroup_ty (name ++ "-alb-sec-grp")
    [("vpc_id", vpc_id);
     ("description", VStr "Security group for EKS Cluster nodes");
     ("tags", VDict [("Name", VStr "eks-alb-sg")]);
     ("ingress", VList [sg_rule 80 80 "tcp" (Some "HTTP access for ALB");
                        sg_rule 443 443 "tcp" (Some "HTTPS access for ALB")]);
     ("egress", VList [sg_rule 0 0 "-1" None])] ;;
  declare LoadBalancer_ty (name ++ "-eks-lb")
    [("load_balancer_type", VStr "application");
     ("security_groups", VList [VOut SecurityGroup_ty (name ++ "-alb-sec-grp") "id"]);
     ("subnets", public_subnet_ids)] ;;
  declare TargetGroup_ty (name ++ "-eks-lb-tg")
    [("health_check", VDict [("path", VStr "/ping"); ("port", VStr "30900");
                             ("interval", VInt 30)]);
     ("port", VInt 32080); ("protocol", VStr "HTTP"); ("vpc_id", vpc_id)] ;;
  declare Listener_ty (name ++ "-eks-lb-http-listener")
    [("load_balancer_arn", VOut LoadBalancer_ty (name ++ "-eks-lb") "arn");
     ("port", VInt 80); ("protocol", VStr "HTTP");
     ("default_actions", VList [VDict
        [("type", VStr "redirect");
         ("redirect", VDict [("port", VStr "443"); ("protocol", VStr "HTTPS");
                             ("status_code", VStr "HTTP_301")])]])] ;;
  declare Listener_ty (name ++ "-eks-lb-https-listener")
    [("load_balancer_arn", VOut LoadBalancer_ty (name ++ "-eks-lb") "arn");
     ("port", VInt 443); ("protocol", VStr "HTTPS");
     ("ssl_policy", VStr "ELBSecurityPolicy-2016-08");
     ("certificate_arn", default_certificate_arn);
     ("default_actions", VList [VDict
        [("type", VStr "forward");
         ("target_group_arn", VOut TargetGroup_ty (name ++ "-eks-lb-tg") "arn")]])] ;;
  (* Using EC2 Autoscaling *)
  node_tags <- py_merge (VDict [("Name", VStr "eks-cluster-node-sg")]) base_tags ;;
  declare SecurityGroup_ty (name ++ "-node-sec-grp")
    [("vpc_id", vpc_id);
     ("description", VStr "Security group for EKS Cluster nodes");
     ("egress", VList [VDict [("from_port", VInt 0); ("to_port", VInt 0);
                              ("protocol", VStr "-1");
                              ("cidr_blocks", VList [VStr "0.0.0.0/0"])]]);
     ("tags", node_tags)] ;;
  let node_sg_id := VOut SecurityGroup_ty (name ++ "-node-sec-grp") "id" in
  declare SecurityGroupRule_ty (name ++ "-node-sec-grp-self")
    [("type", VStr "ingress"); ("from_port", VInt 0); ("to_port", VInt 0);
     ("protocol", VStr "-1");
     ("description", VStr "Allow node to communicate with each other");
     ("security_group_id", node_sg_id); ("source_security_group_id", node_sg_id)] ;;
  declare SecurityGroupRule_ty (name ++ "-node-sec-grp-cluster")
    [("type", VStr "ingress"); ("from_port", VInt 0); ("to_port", VInt 0);
     ("protocol", VStr "-1");
     ("security_group_id", node_sg_id);
     ("source_security_group_id", VOut SecurityGroup_ty "eks-cluster-sg" "id");
     ("description", VStr "Allow worker Kubelets and pods to receive communication from the cluster control plane")] ;;
  declare SecurityGroupRule_ty (name ++ "-node-sec-grp-ssh")
    [("type", VStr "ingress"); ("from_port", VInt 22); ("to_port", VInt 22);
     ("protocol", VStr "tcp");
     ("security_group_id", node_sg_id);
     ("cidr_blocks", VList [VStr "10.0.0.0/8"]);
     ("description", VStr "Allow ssh from vpc")] ;;
  declare SecurityGroupRule_ty (name ++ "-node-sec-grp-app")
    [("type", VStr "ingress"); ("from_port", VInt 30000); ("to_port", VInt 32800);
     ("protocol", VStr "tcp");
     ("security_group_id", node_sg_id);
     ("cidr_blocks", VList [VStr "10.0.0.0/8"]);
     ("description", VStr "Allow app access from vpc")] ;;
  declare InstanceProfile_ty (name ++ "-node-instance-profile")
    [("role", VOut Role_ty "ec2-nodegroup-iam-role" "name")] ;;
  declare LaunchTemplate_ty (name ++ "-node-launch-template")
    [("iam_instance_profile",
      VDict [("arn", VOut InstanceProfile_ty (name ++ "-node-instance-profile") "arn")]);
     ("image_id", worker_image_id);
     ("instance_type", worker_instance_type);
     ("key_name", worker_key_name);
     ("name_prefix", VStr cluster_name);
     ("network_interfaces", VList [VDict [("associate_public_ip_address", VBool false);
                                          ("security_groups", VList [node_sg_id])]]);
     ("block_device_mappings", VList [VDict
        [("device_name", VStr "/dev/xvda");
         ("ebs", VDict [("delete_on_termination", VBool true); ("iops", VInt 0);
                        ("volume_size", VInt 50); ("volume_type", VStr "gp2")])]]);
     ("user_data", VApplyOut "bootstrap_user_data"
        (VCall "pulumi.Output.all"
           [VOut EksCluster_ty "eks-cluster" "endpoint";
            VOut EksCluster_ty "eks-cluster" "certificate_authority.data";
            VStr cluster_name]));
     ("tags", base_tags)] ;;
  keys <- py_keys base_tags ;;
  base_asg_tags <- mapM (fun k =>
      v <- py_getitem base_tags k ;;
      ret (asg_tag (VStr k) v)) keys ;;
  (* [aws.autoscaling.Group] requires [max_size] and [min_size] *)
  require_prop "max_size" worker_max_size ;;
  require_prop "min_size" worker_min_size ;;
  declare Asg_ty (name ++ "-node-asg")
    [("instance_refresh", VDict [("strategy", VStr "Rolling")]);
     ("launch_template",
      VDict [("id", VOut LaunchTemplate_ty (name ++ "-node-launch-template") "id");
             ("version", VStr "$Latest")]);
     ("max_size", worker_max_size);
     ("min_size", worker_min_size);
     ("name", VStr (cluster_name ++ "-worker-node-asg"));
     ("vpc_zone_identifiers", private_subnet_ids);
     ("tags", VList ([asg_tag (VStr "Name") (VStr (cluster_name ++ "-worker-node"));
                      asg_tag (VStr ("kubernetes.io/cluster/" ++ cluster_name)) (VStr "owned");
                      asg_tag (VStr ("k8s.io/cluster-autoscaler/" ++ cluster_name)) (VStr "owned");
                      asg_tag (VStr "k8s.io/cluster-autoscaler/enabled") (VStr "true")]
                     ++ base_asg_tags));
     ("target_group_arns", VList [VOut TargetGroup_ty (name ++ "-eks-lb-tg") "arn"])] ;;
  (* Autoscaler *)
  declare "aws:iam/policy:Policy" (name ++ "-eks-autoscaler-policy")
    [("policy", VCall "json.dumps"
        [VDict [("Version", VStr "2012-10-17");
                ("Statement", VList [VDict
                   [("Action", VList [VStr "autoscaling:DescribeAutoScalingGroups";
                                      VStr "autoscaling:DescribeAutoScalingInstances";
                                      VStr "autoscaling:DescribeLaunchConfigurations";
                                      VStr "autoscaling:DescribeTags";
                                      VStr "autoscaling:SetDesiredCapacity";
                                      VStr "autoscaling:TerminateInstanceInAutoScalingGroup";
                                      VStr "ec2:DescribeLaunchTemplateVersions"]);
                    ("Resource", VStr "*"); ("Effect", VStr "Allow")]])]]);
     ("tags", base_tags)] ;;
  declare Role_ty (name ++ "-eks-autoscaler-role")
    [("assume_role_policy",
      out_apply "autoscaler_assume_policy" autoscaler_assume_policy
                (VOut Oidc_ty (name ++ "-oidc-provider") "arn"));
     ("tags", base_tags)] ;;
  declare Attachment_ty (name ++ "-eks-autoscaler-attach")
    [("role", VOut Role_ty (name ++ "-eks-autoscaler-role") "name");
     ("policy_arn", VOut "aws:iam/policy:Policy" (name ++ "-eks-autoscaler-policy") "arn")] ;;
  declare "aws:autoscaling/policy:Policy" (name ++ "-asg-policy")
    [("scaling_adjustment", VInt 2); ("adjustment_type", VStr "ChangeInCapacity");
     ("cooldown", VInt 300);
     ("autoscaling_group_name", VOut Asg_ty (name ++ "-node-asg") "name")] ;;
  declare "aws:cloudwatch/metricAlarm:MetricAlarm" (name ++ "-eks-cpu-alarm")
    [("comparison_operator", VStr "GreaterThanOrEqualToThreshold");
     ("evaluation_periods", VInt 2); ("metric_name", VStr "CPUUtilization");
     ("namespace", VStr "AWS/EC2"); ("period", VInt 300); ("statistic", VStr "Average");
     ("threshold", VInt 60);
     ("alarm_actions", VList [VOut "aws:autoscaling/policy:Policy" (name ++ "-asg-policy") "arn"]);
     ("dimensions", VDict [("AutoScalingGroupName", VOut Asg_ty (name ++ "-node-asg") "name")])].

End Eks.

(* ------------------------------------------------------------------ *)
(** ** [src/infra/eks/__main__.py] *)

Module EksStack.
Import Py Eval Config Certs Eks.

Definition vpc_stack : string := "organization/vpc/vpc-demo".

Section EksStack.
Variable json_loads : string -> option val.
Variable cfg : string -> option string.

(** [config.get(k, default)] *)
Definition config_get_or (k d : string) : M val :=
  ret (VStr (match cfg k with Some s => s | None => d end)).

(** [config.require_object(k)]: [get_object], and a missing value is an error *)
Definition config_require_object (k : string) : M val :=
  v <- config_get_object json_loads cfg k ;;
  match v with
  | VNone => raise (ConfigMissingError k)
  | _ => ret v
  end.

(** the module body; the result is the list of [pulumi.export]s *)
Definition main (envName : string) : M (list (string * val)) :=
  StackReference vpc_stack ;;
  let BASE_TAGS := VDict [("Environment", VStr envName)] in
  domain_name <- config_require cfg "cert_domain_name" ;;
  cert_args <- CertArgs [("alt_names", VList []); ("base_tags", BASE_TAGS);
                         ("domain_name", domain_name)] ;;
  Certs (envName ++ "-certs") cert_args ;;
  eks_images <- config_require_object "eks_images" ;;
  (* keyword arguments, evaluated left to right *)
  eks_version <- config_require cfg "eks_version" ;;
  image_key <- config_get_or "eks_version" "1.27" ;;
  worker_image_id <- py_get eks_images (py_str image_key) VNone ;;
  worker_instance_type <- config_require cfg "eks_worker_instance_type" ;;
  worker_key_name <- config_require cfg "eks_key_pair" ;;
  worker_max_size <- config_get cfg "eks_worker_max_size" ;;
  worker_min_size <- config_get cfg "eks_worker_min_size" ;;
  args <- EksArgs
    [("base_tags", BASE_TAGS);
     ("default_certificate_arn",
      VOut Certificate_ty (envName ++ "-certs" ++ "-certificate") "arn");
     ("eks_version", eks_version);
     ("private_subnet_ids",
      out_apply "lambda ps: ps" (fun ps => ps) (require_output vpc_stack "private_subnet_ids"));
     ("public_endpoint", VBool true);
     ("public_subnet_ids",
      out_apply "lambda ps: ps" (fun ps => ps) (require_output vpc_stack "public_subnet_ids"));
     ("vpc_id", out_apply "lambda v: v" (fun v => v) (require_output vpc_stack "vpc_id"));
     ("worker_image_id", worker_image_id);
     ("worker_instance_type", worker_instance_type);
     ("worker_key_name", worker_key_name);
     ("worker_max_size", worker_max_size);
     ("worker_min_size", worker_min_size)] ;;
  let k := envName ++ "-k" in
  EKS k args ;;
  ret [("cluster_public_load_balancer", VOut LoadBalancer_ty (k ++ "-eks-lb") "dns_name");
       ("cluster_name", VStr k);
       ("cluster_worker_role", VOut Role_ty "ec2-nodegroup-iam-role" "arn");
       ("cluster_issuer", VOut EksCluster_ty "eks-cluster" "identities[0].oidcs[0].issuer");
       ("cluster_openid_connector", VOut Oidc_ty (k ++ "-oidc-provider") "arn")].

End EksStack.

End EksStack.

(* ================================================================== *)
(** * Reading a resource log *)

Module Log.
Import Py Eval.

(** the first declared resource of a type *)
Fixpoint find_res (ty : string) (log : list res) : option res :=
  match log with
  | [] => None
  | r :: log' => if String.eqb (rtype r) ty then Some r else find_res ty log'
  end.

(** a keyword argument of a declaration *)
Definition prop (r : res) (k : string) : option val := assoc k (rprops r).

Definition Policy_ty : string := "aws:iam/policy:Policy".
Definition Attachment_ty : string := "aws:iam/rolePolicyAttachment:RolePolicyAttachment".

(** every resource a computation appends satisfies [P] *)
Definition decl_ok (P : res -> Prop) {A} (c : M A) : Prop :=
  forall log, Forall P log -> Forall P (snd (c log)).

End Log.

(* ================================================================== *)
(** * Claim-side definitions and sample inputs *)

Module Spec.
Import Py Eval Log.

Definition HPA_ty : string := "kubernetes:autoscaling/v2:HorizontalPodAutoscaler".
Definition Record_ty : string := "aws:route53/record:Record".




(** an attribute dictionary for [KubernetesService], as
    [KubernetesServiceArgs] builds it, with the given permissions and hostnames *)
Definition sample_app_args (service_permissions hostname_list : val) : list (string * val) :=
  [("base_tags", VDict [("Environment", VStr "demoapp")]);
   ("app_name", VStr "demoapp");
   ("container_ports", VList [VInt 3000]);
   ("environment_variables", VDict [("NODE_ENV", VStr "production")]);
   ("image", VStr "demoapp:latest");
   ("kube_issuer", Config.require_output AppStack.k8s_stack "cluster_issuer");
   ("namespace", VOut "kubernetes:core/v1:Namespace" "dev-ns" "metadata.name");
   ("openid_connector", Config.require_output AppStack.k8s_stack "cluster_openid_connector");
   ("public_load_balancer", Config.require_output AppStack.k8s_stack "cluster_public_load_balancer");
   ("secrets_data", VDict []);
   ("service_permissions", service_permissions);
   ("replicas", VInt 1);
   ("hostname_list", hostname_list);
   ("ingress_port", VInt 3000)].

(** the attribute dictionary [RdsDbArgs] builds, in parameter order *)
Definition rds_attrs (base_tags cidr_blocks major_version private_subnets vpc_id zone_name
    is_prod_database serverless_max_capacity storage_size : val) : list (string * val) :=
  [("base_tags", base_tags); ("cidr_blocks", cidr_blocks); ("major_version", major_version);
   ("private_subnets", private_subnets); ("vpc_id", vpc_id); ("zone_name", zone_name);
   ("is_prod_database", is_prod_database);
   ("serverless_max_capacity", serverless_max_capacity); ("storage_size", storage_size)].

(** does [v] refer to the output [attr] of resource [ty]/[n]? *)
Fixpoint mentions_out (ty n attr : string) (v : val) : bool :=
  match v with
  | VOut ty' n' attr' => String.eqb ty ty' && String.eqb n n' && String.eqb attr attr'
  | VList xs =>
      (fix go (l : list val) : bool :=
         match l with [] => false | x :: l' => mentions_out ty n attr x || go l' end) xs
  | VDict kvs =>
      (fix go (l : list (string * val)) : bool :=
         match l with [] => false | (_, x) :: l' => mentions_out ty n attr x || go l' end) kvs
  | VApplyOut _ x => mentions_out ty n attr x
  | VCall _ args =>
      (fix go (l : list val) : bool :=
         match l with [] => false | x :: l' => mentions_out ty n attr x || go l' end) args
  | _ => false
  end.

(** the password of the database component [name] *)
Definition mentions_password (name : string) (v : val) : bool :=
  mentions_out Db.RandomPassword_ty (name ++ "-db-mysql-password") "result" v.

(** the secret-typed fields the password may flow into *)
Definition secret_field (ty k : string) : bool :=
  (String.eqb ty Db.SecretVersion_ty && String.eqb k "secret_string")
  || (String.eqb ty Db.Cluster_ty && String.eqb k "master_password").

(** every declared property that refers to the password is a secret field *)
Definition password_only_in_secret_fields (name : string) (log : list res) : bool :=
  forallb (fun r => forallb (fun kv => negb (mentions_password name (snd kv))
                                       || secret_field (rtype r) (fst kv)) (rprops r)) log.

(** the attribute dictionary [ServicesArgs] builds, in parameter order *)
Definition svcs_attrs (base_tags ebs_csi_chart_version kube_users public_alb vpc_id
    worker_role_arn traefik_chart_version : val) : list (string * val) :=
  [("base_tags", base_tags); ("ebs_csi_chart_version", ebs_csi_chart_version);
   ("kube_users", kube_users); ("public_alb", public_alb); ("vpc_id", vpc_id);
   ("worker_role_arn", worker_role_arn); ("traefik_chart_version", traefik_chart_version)].

(** the declarations the application stack makes before it evaluates the
    arguments of [KubernetesServiceArgs]: two stack references and the
    namespace *)
Definition app_stack_prelude (envName : string) : list res :=
  [mkRes Config.StackReference_ty AppStack.k8s_stack [("name", VStr AppStack.k8s_stack)] [];
   mkRes Config.StackReference_ty AppStack.db_stack [("name", VStr AppStack.db_stack)] [];
   mkRes "kubernetes:core/v1:Namespace" (envName ++ "-ns")
     [("metadata", VDict [("name", VStr "demoapp")])] []].


(** [config.get_object(k)] succeeds: the key is unset or holds valid JSON *)
Definition get_object_ok (json_loads : string -> option val) (cfg : string -> option string)
    (k : string) : bool :=
  match cfg k with
  | None => true
  | Some s => match json_loads s with Some _ => true | None => false end
  end.

(** [config.get_bool(k, d)] succeeds: the key is unset or holds one of the
    four spellings Pulumi accepts *)
Definition get_bool_ok (cfg : string -> option string) (k : string) : bool :=
  match cfg k with
  | None => true
  | Some s => existsb (String.eqb s) ["true"; "True"; "false"; "False"]
  end.

(** [v] is a [pulumi.Output], the only values with an [apply] method *)
Definition is_output (v : val) : bool :=
  match v with VOut _ _ _ | VApplyOut _ _ => true | _ => false end.

(** [config.get_int(k)] succeeds: the key is unset or holds an integer *)
Definition get_int_ok (parse_int : string -> option Z) (cfg : string -> option string)
    (k : string) : bool :=
  match cfg k with
  | None => true
  | Some s => match parse_int s with Some _ => true | None => false end
  end.

(** [config.get_object(k)] is a mapping *)
Definition get_object_is_dict (json_loads : string -> option val) (cfg : string -> option string)
    (k : string) : bool :=
  match cfg k with
  | Some s => match json_loads s with Some (VDict _) => true | _ => false end
  | None => false
  end.

(** the error [KubernetesServiceArgs(...)] raises for the stack's keyword arguments *)
Definition max_replicas_error : PyError :=
  TypeError "KubernetesServiceArgs.__init__() got an unexpected keyword argument 'max_replicas'".

(** the [pulumi.export]s of the network stack under key [k], as a list *)
Definition export_list (exports : list (string * val)) (k : string) : option (list val) :=
  match assoc k exports with Some (VList xs) => Some xs | _ => None end.

(** the security group the database component declares *)
Definition SecurityGroup_ty : string := "aws:ec2/securityGroup:SecurityGroup".

(** the attribute dictionary [KubernetesServiceArgs] builds, in parameter order *)
Definition app_attrs (base_tags app_name container_ports environment_variables image
    kube_issuer namespace openid_connector public_load_balancer secrets_data
    service_permissions replicas hostname_list ingress_port : val) : list (string * val) :=
  [("base_tags", base_tags); ("app_name", app_name); ("container_ports", container_ports);
   ("environment_variables", environment_variables); ("image", image);
   ("kube_issuer", kube_issuer); ("namespace", namespace);
   ("openid_connector", openid_connector); ("public_load_balancer", public_load_balancer);
   ("secrets_data", secrets_data); ("service_permissions", service_permissions);
   ("replicas", replicas); ("hostname_list", hostname_list); ("ingress_port", ingress_port)].

Definition IngressRoute_ty : string := "kubernetes:traefik.containo.us/v1alpha1:IngressRoute".
Definition Deployment_ty : string := "kubernetes:apps/v1:Deployment".
Definition Service_ty : string := "kubernetes:core/v1:Service".

(** [v[k1][k2]...] through nested dictionaries *)
Fixpoint get_path (v : val) (ks : list string) : option val :=
  match ks with
  | [] => Some v
  | k :: ks' => match v with
                | VDict kvs => match assoc k kvs with
                               | Some v' => get_path v' ks'
                               | None => None
                               end
                | _ => None
                end
  end.

(** the Kubernetes objects [KubernetesService] places in a namespace *)
Definition namespaced_ty (ty : string) : bool :=
  existsb (String.eqb ty)
    ["kubernetes:core/v1:ServiceAccount"; "kubernetes:core/v1:Secret"; Deployment_ty;
     HPA_ty; Service_ty; IngressRoute_ty].

(** the label every object of the component [name] carries *)
Definition app_label (name : string) : val := VDict [("app.kubernetes.io/name", VStr name)].

(** a hostname entry whose [name] is missing *)
Definition lacks_name (h : val) : Prop :=
  exists kvs, h = VDict kvs /\ assoc "name" kvs = None.

(** a hostname entry that is a mapping *)
Definition is_dict (h : val) : Prop := exists kvs, h = VDict kvs.

(** the entry of [node_cluster_map_users] / [admin_users] for a user ARN *)
Definition user_entry (u : string) : val :=
  VDict [("userarn", VStr u); ("username", VStr (Svcs.last_segment u ""));
         ("groups", VList [VStr "system:masters"])].

(** the declarations the services stack makes before reading its configuration *)
Definition services_stack_prelude : list res :=
  [mkRes Config.StackReference_ty ServicesStack.vpc_stack
     [("name", VStr ServicesStack.vpc_stack)] [];
   mkRes Config.StackReference_ty ServicesStack.k8s_stack
     [("name", VStr ServicesStack.k8s_stack)] []].

(** the error [ServicesArgs(...)] raises for the stack's keyword arguments *)
Definition private_subnets_error : PyError :=
  TypeError "ServicesArgs.__init__() got an unexpected keyword argument 'private_subnets'".

(** a resolved ACM domain validation option *)
Definition dvo (rrn rtype rvalue : string) : val :=
  VDict [("resource_record_name", VStr rrn); ("resource_record_type", VStr rtype);
         ("resource_record_value", VStr rvalue)].

(** the record [iterate_records] declares for a matching option at index [num] *)
Definition dvo_record (name zone : string) (zone_id : val) (num : nat)
    (o : string * string * string) : res :=
  let '(rrn, rtype, rvalue) := o in
  mkRes Record_ty (name ++ "-dvo-records-" ++ nat_str num)
    [("allow_overwrite", VBool true);
     ("name", VStr (py_str_replace rrn ("." ++ zone ++ ".") ""));
     ("ttl", VInt 300); ("type", VStr rtype); ("records", VList [VStr rvalue]);
     ("zone_id", zone_id)] [].

(** [l ++ old] contains [old] only as its suffix: no occurrence of [old]
    starts inside [l] *)
Fixpoint no_straddle (old l : string) : bool :=
  match l with
  | EmptyString => true
  | String c l' => negb (String.prefix old (String c l' ++ old)) && no_straddle old l'
  end.

(** the value [config.get(k)] returns for a configuration entry *)
Definition cfg_val (o : option string) : val :=
  match o with Some s => VStr s | None => VNone end.

(** a resolved domain validation option, from its three fields *)
Definition dvo_of (o : string * string * string) : val :=
  let '(rrn, rtype, rvalue) := o in dvo rrn rtype rvalue.

(** a security group rule that opens exactly one of [ports] *)
Definition open_ports_only (ports : list Z) (rule : val) : Prop :=
  exists p, In p ports /\ get_path rule ["from_port"] = Some (VInt p)
            /\ get_path rule ["to_port"] = Some (VInt p).

(** a sample configuration of the cluster stack *)
Definition eks_cfg (k : string) : option string :=
  if String.eqb k "cert_domain_name" then Some "demo.cloudlan.net"
  else if String.eqb k "eks_images" then Some "images"
  else if String.eqb k "eks_version" then Some "1.27"
  else if String.eqb k "eks_worker_instance_type" then Some "t3.large"
  else if String.eqb k "eks_key_pair" then Some "ops"
  else if String.eqb k "eks_worker_max_size" then Some "6"
  else if String.eqb k "eks_worker_min_size" then Some "2"
  else None.

Definition eks_json (s : string) : option val := Some (VDict [("1.27", VStr "ami-0123")]).

(** an attribute dictionary for [EKS], as [EksArgs] builds it, with the
    given base tags *)
Definition sample_eks_args (base_tags : val) : list (string * val) :=
  [("base_tags", base_tags);
   ("default_certificate_arn", VOut Certs.Certificate_ty "dev-certs-certificate" "arn");
   ("eks_version", VStr "1.27");
   ("private_subnet_ids", VApplyOut "lambda ps: ps"
      (Config.require_output EksStack.vpc_stack "private_subnet_ids"));
   ("public_subnet_ids", VApplyOut "lambda ps: ps"
      (Config.require_output EksStack.vpc_stack "public_subnet_ids"));
   ("vpc_id", VApplyOut "lambda v: v" (Config.require_output EksStack.vpc_stack "vpc_id"));
   ("worker_image_id", VStr "ami-0123"); ("worker_key_name", VStr "ops");
   ("private_endpoint", VBool false); ("public_endpoint", VBool true);
   ("worker_instance_type", VStr "t3.large");
   ("worker_max_size", VStr "6"); ("worker_min_size", VStr "2")].


End Spec.

(* ================================================================== *)
(** * Properties *)

Module Facts.
Import Py Eval.

Lemma substring_0_length (s : string) : substring 0 (String.length s) s = s.
Proof. induction s as [|c s IH]; simpl; [reflexivity | now rewrite IH]. Qed.

(** [str.replace] leaves a string without occurrences unchanged *)
Lemma replace_fuel_noop (n : nat) (old new s : string) :
  contains old s = false -> replace_fuel n old new s = s.
Proof.
  revert s; induction n as [|n IH]; intros s Hs; [reflexivity|].
  destruct s as [|c s']; [reflexivity|].
  simpl in Hs; apply orb_false_iff in Hs as [Hp Hc].
  simpl; rewrite Hp, (IH s' Hc); reflexivity.
Qed.

Lemma replace_fuel_S (n : nat) (old new : string) (c : ascii) (s' : string) :
  replace_fuel (S n) old new (String c s')
  = if String.prefix old (String c s')
    then new ++ replace_fuel n old new
                (substring (String.length old)
                           (String.length (String c s') - String.length old) (String c s'))
    else String c (replace_fuel n old new s').
Proof. reflexivity. Qed.

Lemma prefix_app (s t : string) : String.prefix s (s ++ t) = true.
Proof.
  induction s as [|c s IH]; simpl; [destruct t; reflexivity|].
  destruct (ascii_dec c c); [exact IH | congruence].
Qed.

Lemma length_app (s t : string) :
  String.length (s ++ t) = String.length s + String.length t.
Proof. induction s as [|c s IH]; simpl; [reflexivity | now rewrite IH]. Qed.

Lemma substring_app (s t : string) :
  substring (String.length s) (String.length t) (s ++ t) = t.
Proof.
  induction s as [|c s IH]; simpl; [apply substring_0_length | exact IH].
Qed.

(** one step of [str.replace] on a string that starts with [old] *)
Lemma replace_fuel_prefix (n : nat) (old new rest : string) :
  old <> "" -> replace_fuel (S n) old new (old ++ rest) = new ++ replace_fuel n old new rest.
Proof.
  intro Hne. destruct old as [|c o]; [congruence|].
  change (String c o ++ rest) with (String c (o ++ rest)).
  rewrite replace_fuel_S.
  change (String c (o ++ rest)) with (String c o ++ rest).
  rewrite prefix_app, length_app.
  replace (String.length (String c o) + String.length rest - String.length (String c o))
    with (String.length rest) by lia.
  rewrite substring_app. reflexivity.
Qed.

(** stripping a leading [https://] that occurs nowhere else *)
Lemma replace_https_prefix (rest : string) :
  contains "https://" rest = false ->
  py_str_replace ("https://" ++ rest) "https://" "" = rest.
Proof.
  intro H. unfold py_str_replace.
  replace (String.eqb "https://" "") with false by reflexivity.
  rewrite length_app.
  change (String.length "https://" + String.length rest)
    with (S (7 + String.length rest)).
  rewrite replace_fuel_prefix by discriminate.
  apply replace_fuel_noop; exact H.
Qed.

(** ** Declarations made by a computation *)

Section DeclOk.
Import Log.
Variable P : res -> Prop.

Lemma decl_ok_bind {A B} (c : M A) (k : A -> M B) :
  decl_ok P c ->
  (forall x log log', c log = (inr x, log') -> decl_ok P (k x)) ->
  decl_ok P (bind c k).
Proof.
  intros Hc Hk log Hlog. unfold bind.
  specialize (Hc log Hlog).
  destruct (c log) as [[e|x] log'] eqn:E; simpl in *; [exact Hc|].
  exact (Hk x log log' E log' Hc).
Qed.

Lemma decl_ok_pure {A} (c : M A) : (forall log, snd (c log) = log) -> decl_ok P c.
Proof. intros H log Hlog. now rewrite H. Qed.

Lemma decl_ok_declare (ty name : string) props secret :
  P (mkRes ty name props secret) -> decl_ok P (declare_secret ty name props secret).
Proof.
  intros Hr log Hlog. simpl. apply Forall_app. split; [exact Hlog | now constructor].
Qed.

Lemma decl_ok_when (b : bool) (c : M unit) :
  (b = true -> decl_ok P c) -> decl_ok P (when b c).
Proof.
  destruct b; simpl; intro H; [now apply H|].
  apply decl_ok_pure; reflexivity.
Qed.

Lemma decl_ok_mapM {A B} (f : A -> M B) (l : list A) :
  (forall x, decl_ok P (f x)) -> decl_ok P (mapM f l).
Proof.
  intro Hf. induction l as [|x l IH]; simpl.
  - apply decl_ok_pure; reflexivity.
  - apply decl_ok_bind; [apply Hf|]. intros y _ _ _.
    apply decl_ok_bind; [exact IH|]. intros ys _ _ _.
    apply decl_ok_pure; reflexivity.
Qed.

Lemma decl_ok_for_enum {A} (f : nat -> A -> M unit) (i : nat) (l : list A) :
  (forall j x, decl_ok P (f j x)) -> decl_ok P (for_enum f i l).
Proof.
  intro Hf. revert i. induction l as [|x l IH]; intro i; simpl.
  - apply decl_ok_pure; reflexivity.
  - apply decl_ok_bind; [apply Hf|]. intros _ _ _ _. apply IH.
Qed.

Lemma getattr_log obj a log : snd (getattr obj a log) = log.
Proof. unfold getattr. destruct (assoc a obj); reflexivity. Qed.

Lemma getattr_inv obj a v log x log' :
  assoc a obj = Some v -> getattr obj a log = (inr x, log') -> x = v /\ log' = log.
Proof. unfold getattr. intros -> H. inversion H. now split. Qed.

End DeclOk.

Ltac pure_log := intro; repeat match goal with
  | |- context [match ?x with _ => _ end] => destruct x
  end; reflexivity.

(** walk a straight-line program, leaving one goal per declaration *)
Ltac decl_ok_walk :=
  repeat match goal with
  | |- Log.decl_ok _ (bind _ _) => apply decl_ok_bind; [ | intros ? ? ? ?]
  | |- Log.decl_ok _ (declare _ _ _) => apply decl_ok_declare
  | |- Log.decl_ok _ (declare_secret _ _ _ _) => apply decl_ok_declare
  | |- Log.decl_ok _ (when _ _) => apply decl_ok_when; intro
  | |- Log.decl_ok _ (mapM _ _) => apply decl_ok_mapM; intro
  | |- Log.decl_ok _ (for_enum _ _ _) => apply decl_ok_for_enum; intros ? ?
  | |- Log.decl_ok _ (App.record_step _ _ _ _) => unfold App.record_step
  | |- Log.decl_ok _ ((fun _ => _) _) => cbv beta
  | |- Log.decl_ok _ (getattr _ _) => apply decl_ok_pure; intro; apply getattr_log
  | |- Log.decl_ok _ (ret _) => apply decl_ok_pure; reflexivity
  | |- Log.decl_ok _ (raise _) => apply decl_ok_pure; reflexivity
  | |- Log.decl_ok _ (py_len _) => apply decl_ok_pure; unfold py_len; pure_log
  | |- Log.decl_ok _ (py_iter _) => apply decl_ok_pure; unfold py_iter; pure_log
  | |- Log.decl_ok _ (py_items _) => apply decl_ok_pure; unfold py_items; pure_log
  | |- Log.decl_ok _ (py_get _ _ _) => apply decl_ok_pure; unfold py_get; pure_log
  | |- Log.decl_ok _ (py_getitem _ _) => apply decl_ok_pure; unfold py_getitem; pure_log
  | |- Log.decl_ok _ (Svcs.split_last _) => apply decl_ok_pure; unfold Svcs.split_last; pure_log
  | |- Log.decl_ok _ (has_apply _) => apply decl_ok_pure; unfold has_apply; pure_log
  | |- Log.decl_ok _ (require_prop _ _) => apply decl_ok_pure; unfold require_prop; pure_log
  end.

End Facts.

Module Claims.
Import Py Eval App Log Spec Db Svcs.

(** C1: for every namespace [ns] and service name [name], and a cluster
    issuer [https://rest] whose [https://] occurs only as its scheme, the
    trust condition of the service role ([KubernetesService], lines 89-95)
    tests [StringEquals] of the variable [rest:sub] against the single value
    [system:serviceaccount:ns:name]; for the issuer
    [https://x.eks.amazonaws.com/id/ABC], namespace [demoapp] and service
    [demoapp-app] these are [x.eks.amazonaws.com/id/ABC:sub] and
    [system:serviceaccount:demoapp:demoapp-app]. *)
Theorem trust_condition_exact (name ns rest : string)
    (Hrest : contains "https://" rest = false) :
  trust_condition name (VStr ("https://" ++ rest)) (VStr ns)
  = VDict [("test", VStr "StringEquals");
           ("variable", VStr (rest ++ ":sub"));
           ("values", VList [VStr ("system:serviceaccount:" ++ ns ++ ":" ++ name)])]
  /\ trust_condition "demoapp-app" (VStr "https://x.eks.amazonaws.com/id/ABC") (VStr "demoapp")
  = VDict [("test", VStr "StringEquals");
           ("variable", VStr "x.eks.amazonaws.com/id/ABC:sub");
           ("values", VList [VStr "system:serviceaccount:demoapp:demoapp-app"])].
Proof.
  split.
  - unfold trust_condition, out_apply, issuer_sub, sa_subject; simpl py_str.
    rewrite Facts.replace_https_prefix by exact Hrest. reflexivity.
  - vm_compute. reflexivity.
Qed.

Lemma trust_condition_exact_witness :
  contains "https://" "x.eks.amazonaws.com/id/ABC" = false /\
  trust_condition "demoapp-app" (VStr ("https://" ++ "x.eks.amazonaws.com/id/ABC")) (VStr "demoapp")
  = VDict [("test", VStr "StringEquals");
           ("variable", VStr ("x.eks.amazonaws.com/id/ABC" ++ ":sub"));
           ("values", VList [VStr ("system:serviceaccount:" ++ "demoapp" ++ ":" ++ "demoapp-app")])].
Proof.
  split; [reflexivity|].
  apply (trust_condition_exact "demoapp-app" "demoapp" "x.eks.amazonaws.com/id/ABC").
  reflexivity.
Defined.


(** C6: for every [KubernetesService] instance whose [service_permissions]
    is the list [xs], an IAM policy or a role-policy attachment is declared
    only when [xs] is non-empty; with an empty list neither is declared. *)
Theorem policy_only_with_permissions (name : string) (args : list (string * val))
    (xs : list val) (Hsp : assoc "service_permissions" args = Some (VList xs)) :
  Forall (fun r => rtype r = Policy_ty \/ rtype r = Attachment_ty -> xs <> [])
         (snd (run (KubernetesService name args))).
Proof.
  apply (fun H : decl_ok _ (KubernetesService name args) => H [] (Forall_nil _)).
  unfold KubernetesService. Facts.decl_ok_walk.
  all: unfold Policy_ty, Attachment_ty; simpl; try (intros [Hr|Hr]; discriminate Hr).
  all: intros _; repeat match goal with
       | H : getattr _ "service_permissions" _ = (inr _, _) |- _ =>
           apply (Facts.getattr_inv _ _ _ _ _ _ Hsp) in H as [-> _]
       | H : py_len (VList _) _ = (inr _, _) |- _ =>
           simpl in H; inversion H; subst; clear H
       end;
       match goal with |- ?l <> [] => destruct l end; discriminate.
Qed.

Lemma policy_only_with_permissions_witness :
  assoc "service_permissions" (sample_app_args (VList []) (VList [])) = Some (VList []) /\
  Forall (fun r => rtype r = Policy_ty \/ rtype r = Attachment_ty -> ([] : list val) <> [])
         (snd (run (KubernetesService "demoapp-app" (sample_app_args (VList []) (VList []))))).
Proof.
  split; [reflexivity|].
  apply (policy_only_with_permissions "demoapp-app" (sample_app_args (VList []) (VList [])) []).
  reflexivity.
Defined.

(** C2 (evidence): whatever the arguments, every autoscaler that
    [KubernetesService] declares has [min_replicas = 1] and
    [max_replicas = 6], and its CPU and memory targets are
    [type = Utilization] with [average_value = "60"]. *)
Theorem hpa_bounds_fixed (name : string) (args : list (string * val)) :
  Forall (fun r => rtype r = HPA_ty -> prop r "spec" = Some (hpa_spec name))
         (snd (run (KubernetesService name args)))
  /\ hpa_spec name =
     VDict [("scale_target_ref", VDict [("api_version", VStr "apps/v1");
                                       ("kind", VStr "Deployment"); ("name", VStr name)]);
            ("min_replicas", VInt 1); ("max_replicas", VInt 6);
            ("metrics", VList [utilization_metric "cpu"; utilization_metric "memory"])]
  /\ utilization_metric "cpu" =
     VDict [("type", VStr "Resource");
            ("resource", VDict [("name", VStr "cpu");
                                ("target", VDict [("type", VStr "Utilization");
                                                  ("average_value", VStr "60")])])].
Proof.
  split; [|split; reflexivity].
  apply (fun H : decl_ok _ (KubernetesService name args) => H [] (Forall_nil _)).
  unfold KubernetesService. Facts.decl_ok_walk.
  all: unfold HPA_ty; simpl; intro Hr; first [discriminate Hr | reflexivity].
Qed.




(** C4: a database component declares its cluster; with
    [is_prod_database = True] the cluster has [skip_final_snapshot = False]
    and a non-empty [final_snapshot_identifier]; with [False] it has
    [skip_final_snapshot = True] (and no identifier). *)
Theorem final_snapshot_follows_prod_flag (name : string)
    (base_tags cidr_blocks major_version private_subnets vpc_id zone_name
     serverless_max_capacity storage_size : val) (is_prod : bool) :
  exists r,
    find_res Cluster_ty
      (snd (run (RdsDb name (rds_attrs base_tags cidr_blocks major_version private_subnets
                               vpc_id zone_name (VBool is_prod)
                               serverless_max_capacity storage_size)))) = Some r /\
    prop r "skip_final_snapshot" = Some (VBool (negb is_prod)) /\
    (if is_prod
     then exists id, prop r "final_snapshot_identifier" = Some (VStr id) /\ id <> ""
     else prop r "final_snapshot_identifier" = Some VNone).
Proof.
  destruct is_prod; simpl; eexists; (split; [reflexivity|]); simpl; split; try reflexivity.
  eexists; split; [reflexivity|]. destruct name; discriminate.
Qed.

(** C8: the password of a database component is a [RandomPassword] whose
    [result] is an additional secret output; given arguments that do not
    refer to it, the only declared properties that refer to it are the
    Secrets Manager [secret_string] and the cluster's [master_password];
    and of the database stack's exports only [db_admin_password] refers
    to it. *)
Theorem password_routed_to_secrets (name : string)
    (base_tags cidr_blocks major_version private_subnets vpc_id zone_name
     is_prod_database serverless_max_capacity storage_size : val)
    (Hargs : forallb (fun v => negb (mentions_password name v))
               [base_tags; cidr_blocks; major_version; private_subnets; vpc_id; zone_name;
                is_prod_database; serverless_max_capacity; storage_size] = true) :
  let log := snd (run (RdsDb name (rds_attrs base_tags cidr_blocks major_version
                        private_subnets vpc_id zone_name is_prod_database
                        serverless_max_capacity storage_size))) in
  (exists r, find_res RandomPassword_ty log = Some r /\ rsecret_outputs r = ["result"])
  /\ password_only_in_secret_fields name log = true
  /\ (forall envName json_loads cfg exports log',
        run (DbStack.main json_loads cfg envName) = (inr exports, log') ->
        map fst (filter (fun kv => mentions_password (envName ++ "-db") (snd kv)) exports)
        = ["db_admin_password"]).
Proof.
  simpl in Hargs. unfold mentions_password in Hargs.
  repeat rewrite andb_true_iff in Hargs.
  destruct Hargs as (H1 & H2 & H3 & H4 & H5 & H6 & H7 & H8 & H9 & _).
  rewrite negb_true_iff in H1, H2, H3, H4, H5, H6, H7, H8, H9.
  split; [|split].
  - eexists; split; reflexivity.
  - unfold password_only_in_secret_fields, mentions_password. simpl.
    rewrite ?H1, ?H2, ?H3, ?H4, ?H5, ?H6, ?H7, ?H8, ?H9.
    destruct (truthy is_prod_database); simpl;
      rewrite ?String.eqb_refl; simpl; reflexivity.
  - intros envName json_loads cfg exports log' Hrun.
    unfold run, DbStack.main, Config.config_get_object, Config.config_require,
      Config.config_get in Hrun.
    destruct (cfg "cidr_blocks") as [c|]; [destruct (json_loads c)|];
      destruct (cfg "db_major_version"); simpl in Hrun; inversion Hrun; subst; simpl.
    all: unfold mentions_password; simpl; rewrite ?String.eqb_refl; reflexivity.
Qed.

Lemma password_routed_to_secrets_witness :
  forallb (fun v => negb (mentions_password "demo-db" v))
    [VDict []; VList [VStr "10.0.0.0/16"]; VStr "8.0"; VList []; VStr "vpc-1";
     VStr "cloudlan.net"; VBool true; VInt 3; VInt 20] = true /\
  let log := snd (run (RdsDb "demo-db" (rds_attrs (VDict []) (VList [VStr "10.0.0.0/16"])
                        (VStr "8.0") (VList []) (VStr "vpc-1") (VStr "cloudlan.net")
                        (VBool true) (VInt 3) (VInt 20)))) in
  (exists r, find_res RandomPassword_ty log = Some r /\ rsecret_outputs r = ["result"])
  /\ password_only_in_secret_fields "demo-db" log = true
  /\ (forall envName json_loads cfg exports log',
        run (DbStack.main json_loads cfg envName) = (inr exports, log') ->
        map fst (filter (fun kv => mentions_password (envName ++ "-db") (snd kv)) exports)
        = ["db_admin_password"]).
Proof.
  split; [reflexivity|].
  apply (password_routed_to_secrets "demo-db" (VDict []) (VList [VStr "10.0.0.0/16"])
           (VStr "8.0") (VList []) (VStr "vpc-1") (VStr "cloudlan.net")
           (VBool true) (VInt 3) (VInt 20)).
  reflexivity.
Defined.

(** C10: every [aws-auth] ConfigMap that [ServicesResources] declares maps
    roles by [get_node_roles] applied to the worker role it was given, and
    [get_node_roles] always returns the worker role's entry followed by the
    fixed entry putting [arn:aws:iam::389169665533:role/ci-role] in
    [system:masters], whatever the worker role. *)
Theorem aws_auth_grants_ci_role (name : string) (args : list (string * val)) (w : val)
    (Hw : assoc "worker_role_arn" args = Some w) :
  Forall (fun r => rtype r = ConfigMap_ty ->
                   exists users, prop r "data"
                     = Some (VDict [("mapRoles", out_apply "get_node_roles" get_node_roles w);
                                    ("mapUsers", users)]))
         (snd (run (ServicesResources name args)))
  /\ (forall worker_role,
        get_node_roles worker_role
        = VCall "yaml.dump"
            [VList [VDict [("rolearn", worker_role);
                           ("username", VStr "system:node:{{EC2PrivateDNSName}}");
                           ("groups", VList [VStr "system:bootstrappers"; VStr "system:nodes"])];
                    VDict [("rolearn", VStr "arn:aws:iam::389169665533:role/ci-role");
                           ("username", VStr "ci-user");
                           ("groups", VList [VStr "system:masters"])]]]).
Proof.
  split; [|reflexivity].
  apply (fun H : decl_ok _ (ServicesResources name args) => H [] (Forall_nil _)).
  unfold ServicesResources. Facts.decl_ok_walk.
  all: unfold ConfigMap_ty; simpl; intro Hr; try discriminate Hr.
  repeat match goal with
  | H : getattr _ "worker_role_arn" _ = (inr _, _) |- _ =>
      apply (Facts.getattr_inv _ _ _ _ _ _ Hw) in H as [-> _]
  end.
  eexists; reflexivity.
Qed.

Lemma aws_auth_grants_ci_role_witness :
  let w := Config.require_output ServicesStack.k8s_stack "cluster_worker_role" in
  let args := svcs_attrs (VDict []) (VStr "2.20.0") (VList [VStr "arn:aws:iam::1:user/admin"])
                (VStr "lb") (VStr "vpc-1") w (VStr "v23.2.0") in
  assoc "worker_role_arn" args = Some w /\
  find_res ConfigMap_ty (snd (run (ServicesResources "demo-svcs" args))) <> None /\
  Forall (fun r => rtype r = ConfigMap_ty ->
                   exists users, prop r "data"
                     = Some (VDict [("mapRoles", out_apply "get_node_roles" get_node_roles w);
                                    ("mapUsers", users)]))
         (snd (run (ServicesResources "demo-svcs" args))).
Proof.
  split; [reflexivity|]. split; [vm_compute; discriminate|].
  apply (aws_auth_grants_ci_role "demo-svcs" _
           (Config.require_output ServicesStack.k8s_stack "cluster_worker_role")).
  reflexivity.
Defined.

(** C3 (counterexample): with no configuration set, the application stack
    fails with [ConfigMissingError "app_image"], not a [TypeError], and by
    then it has declared two stack references and the namespace. *)
Lemma app_stack_missing_image_cex :
  run (AppStack.main (fun _ => None) (fun _ => None) (fun _ => None) "dev")
  = (inl (ConfigMissingError "app_image"), app_stack_prelude "dev")
  /\ length (app_stack_prelude "dev") = 3.
Proof. split; reflexivity. Qed.

(** C3: for every configuration the application stack fails and never
    declares the [KubernetesService] component.  It first declares the two
    stack references and the namespace (the log at failure is exactly
    [app_stack_prelude]); it then raises one of the errors of the argument
    reads, or, when every read succeeds and [app_secrets] is a mapping, the
    [TypeError] of [KubernetesServiceArgs] for the unexpected keyword
    [max_replicas]. *)
Theorem app_stack_always_fails json_loads parse_int cfg envName :
  exists e,
    run (AppStack.main json_loads parse_int cfg envName) = (inl e, app_stack_prelude envName)
    /\ (e = max_replicas_error
        \/ e = ConfigTypeError "app_environment_variables"
        \/ e = ConfigTypeError "app_hostnames"
        \/ e = ConfigMissingError "app_image"
        \/ e = ConfigTypeError "app_max_replicas"
        \/ e = ConfigTypeError "app_min_replicas"
        \/ e = ConfigTypeError "app_secrets"
        \/ e = TypeError "argument after ** must be a mapping")
    /\ (get_object_ok json_loads cfg "app_environment_variables" = true ->
        get_object_ok json_loads cfg "app_hostnames" = true ->
        cfg "app_image" <> None ->
        get_int_ok parse_int cfg "app_max_replicas" = true ->
        get_int_ok parse_int cfg "app_min_replicas" = true ->
        get_object_is_dict json_loads cfg "app_secrets" = true ->
        e = max_replicas_error).
Proof.
  unfold get_object_ok, get_int_ok, get_object_is_dict.
  unfold AppStack.main, run, Config.config_get_object, Config.config_require,
    Config.config_get_int.
  cbn [bind Config.StackReference declare declare_secret ret raise app].
  repeat match goal with
  | |- context [match cfg ?k with _ => _ end] => destruct (cfg k)
  | |- context [match json_loads ?s with _ => _ end] => destruct (json_loads s)
  | |- context [match parse_int ?s with _ => _ end] => destruct (parse_int s)
  end.
  all: cbn [bind Config.StackReference declare declare_secret ret raise app].
  all: try match goal with |- context [py_merge _ ?v] => destruct v end.
  all: cbn.
  all: eexists; split; [reflexivity|].
  all: split; [repeat (first [left; reflexivity | right]); reflexivity
              | intros; try discriminate; try congruence; try reflexivity].
Qed.




(** C9: the network stack, with [vpc_cidr] set to [10.0.0.0/16] (a valid
    block) and any non-empty list of available zones, of which it keeps the
    first and the last, runs to completion and exports two public subnet
    ids, two private subnet ids and two NAT gateway addresses. *)
Theorem vpc_stack_two_zone_exports (valid_cidr : string -> bool)
    (cfg : string -> option string) (envName : string) (available : list string)
    (Hvalid : valid_cidr "10.0.0.0/16" = true)
    (Hcidr : cfg "vpc_cidr" = Some "10.0.0.0/16")
    (Hs3 : get_bool_ok cfg "create_s3_endpoint" = true)
    (Hzones : available <> []) :
  exists exports log,
    run (VpcStack.main valid_cidr cfg envName available) = (inr exports, log)
    /\ (exists ps, export_list exports "public_subnet_ids" = Some ps /\ length ps = 2)
    /\ (exists ps, export_list exports "private_subnet_ids" = Some ps /\ length ps = 2)
    /\ (exists ips, export_list exports "nat_gateway_ips" = Some ips /\ length ips = 2).
Proof.
  destruct available as [|z0 rest]; [contradiction|].
  unfold VpcStack.main, run, VpcStack.first_and_last, Config.config_require,
    Config.config_get_bool.
  rewrite Hcidr. unfold get_bool_ok in Hs3.
  destruct (cfg "create_s3_endpoint") as [b|].
  - cbn [bind ret].
    destruct (existsb (String.eqb b) ["true"; "True"]) eqn:Et.
    + unfold VpcStack.Vpc; cbn [bind ret py_str]; rewrite Hvalid; cbn [negb];
        do 2 eexists; (split; [reflexivity|]);
        repeat split; eexists; split; reflexivity.
    + destruct (existsb (String.eqb b) ["false"; "False"]) eqn:Ef.
      * unfold VpcStack.Vpc; cbn [bind ret py_str]; rewrite Hvalid; cbn [negb];
          do 2 eexists; (split; [reflexivity|]);
          repeat split; eexists; split; reflexivity.
      * exfalso. cbn [existsb] in Et, Ef, Hs3.
        rewrite !orb_false_r in Et, Ef. rewrite !orb_false_r in Hs3.
        apply orb_false_iff in Et as [E1 E2]. apply orb_false_iff in Ef as [E3 E4].
        rewrite E1, E2, E3, E4 in Hs3. discriminate Hs3.
  - unfold VpcStack.Vpc; cbn [bind ret py_str]; rewrite Hvalid; cbn [negb];
      do 2 eexists; (split; [reflexivity|]);
      repeat split; eexists; split; reflexivity.
Qed.

Lemma vpc_stack_two_zone_exports_witness :
  exists exports log,
    run (VpcStack.main (fun c => String.eqb c "10.0.0.0/16")
           (fun k => if String.eqb k "vpc_cidr" then Some "10.0.0.0/16" else None)
           "dev" ["us-east-1a"; "us-east-1b"; "us-east-1c"]) = (inr exports, log)
    /\ (exists ps, export_list exports "public_subnet_ids" = Some ps /\ length ps = 2)
    /\ (exists ps, export_list exports "private_subnet_ids" = Some ps /\ length ps = 2)
    /\ (exists ips, export_list exports "nat_gateway_ips" = Some ips /\ length ips = 2).
Proof.
  apply vpc_stack_two_zone_exports; [reflexivity | reflexivity | reflexivity | discriminate].
Defined.

End Claims.


(* ================================================================== *)
(** * Further properties of the program *)

Module Extras.
Import Py Eval Log Spec App Svcs.

(** ** Strings *)

Lemma append_empty_r (s : string) : s ++ "" = s.
Proof. induction s as [|c s IH]; simpl; [reflexivity | now rewrite IH]. Qed.

Lemma string_app_assoc (a b c : string) : (a ++ b) ++ c = a ++ b ++ c.
Proof. induction a as [|x a IH]; simpl; [reflexivity | now rewrite IH]. Qed.

Lemma replace_fuel_empty n old new : replace_fuel n old new "" = "".
Proof. destruct n; reflexivity. Qed.

Lemma replace_fuel_suffix (old new l : string) (n : nat) :
  old <> "" -> no_straddle old l = true -> String.length l < n ->
  replace_fuel n old new (l ++ old) = l ++ new.
Proof.
  intros Hne. revert n. induction l as [|c l IH]; intros n Hs Hn.
  - destruct n as [|n]; [cbn in Hn; lia|].
    cbn [append].
    pose proof (Facts.replace_fuel_prefix n old new "" Hne) as Hp.
    rewrite append_empty_r in Hp. rewrite Hp, replace_fuel_empty. apply append_empty_r.
  - destruct n as [|n]; [cbn in Hn; lia|].
    cbn [no_straddle] in Hs. apply andb_true_iff in Hs as [Hp Hs].
    apply negb_true_iff in Hp.
    cbn [append]. rewrite Facts.replace_fuel_S.
    change (String c (l ++ old)) with (String c l ++ old). rewrite Hp.
    cbn [append]. f_equal. apply IH; [exact Hs | cbn in Hn; lia].
Qed.

(** [(l + old).replace(old, new)] when [old] occurs only as the suffix *)
Lemma py_str_replace_suffix (old new l : string) :
  old <> "" -> no_straddle old l = true ->
  py_str_replace (l ++ old) old new = l ++ new.
Proof.
  intros Hne Hs. unfold py_str_replace.
  destruct (String.eqb old "") eqn:E; [apply String.eqb_eq in E; congruence|].
  apply replace_fuel_suffix; [exact Hne | exact Hs|].
  rewrite Facts.length_app. destruct old; [congruence|]. cbn. lia.
Qed.

(** a label with no ['.'] never straddles a suffix starting with ['.'] *)
Lemma no_dot_no_straddle (l t : string) :
  contains "." l = false -> no_straddle ("." ++ t) l = true.
Proof.
  induction l as [|c l IH]; intro H; [reflexivity|].
  cbn [contains] in H. apply orb_false_iff in H as [Hc H].
  cbn [no_straddle]. rewrite (IH H), andb_true_r.
  cbn [String.prefix append] in Hc |- *.
  destruct (ascii_dec "." c); [destruct l; cbn in Hc; discriminate | reflexivity].
Qed.

Lemma first_segment_no_dot (l t : string) :
  contains "." l = false -> first_segment (l ++ "." ++ t) = l.
Proof.
  induction l as [|c l IH]; intro H; [reflexivity|].
  cbn [contains] in H. apply orb_false_iff in H as [Hc H].
  change (String c l ++ "." ++ t) with (String c (l ++ "." ++ t)).
  cbn [first_segment]. rewrite (IH H).
  destruct (Ascii.eqb c "."%char) eqn:E; [|reflexivity].
  apply Ascii.eqb_eq in E. subst. cbn in Hc. destruct l; discriminate.
Qed.

Lemma last_segment_no_slash (u acc : string) :
  contains "/" u = false -> last_segment u acc = acc ++ u.
Proof.
  revert acc. induction u as [|c u IH]; intros acc H; cbn [last_segment].
  - symmetry; apply append_empty_r.
  - cbn [contains] in H. apply orb_false_iff in H as [Hc H].
    destruct (Ascii.eqb c "/"%char) eqn:E.
    + apply Ascii.eqb_eq in E. subst. cbn in Hc. destruct u; discriminate.
    + rewrite (IH _ H), string_app_assoc. reflexivity.
Qed.

Lemma last_segment_app (p u acc : string) :
  last_segment (p ++ "/" ++ u) acc = last_segment u "".
Proof.
  revert acc. induction p as [|c p IH]; intro acc; [reflexivity|].
  cbn [append last_segment]. destruct (Ascii.eqb c "/"%char); apply IH.
Qed.

Lemma last_segment_acc_no_slash (s acc : string) :
  contains "/" acc = false -> contains "/" (last_segment s acc) = false.
Proof.
  revert acc. induction s as [|c s IH]; intros acc H; cbn [last_segment]; [exact H|].
  destruct (Ascii.eqb c "/"%char) eqn:E; apply IH; [reflexivity|].
  clear IH. induction acc as [|a acc IHa].
  - cbn [append contains String.prefix]. destruct (ascii_dec "/" c) as [e|]; [|reflexivity].
    subst. rewrite Ascii.eqb_refl in E. discriminate.
  - cbn [contains] in H |- *. apply orb_false_iff in H as [H1 H2].
    apply orb_false_iff; split; [|exact (IHa H2)].
    cbn [String.prefix append] in H1 |- *.
    destruct (ascii_dec "/" a); [|reflexivity]. destruct acc; cbn in H1; discriminate.
Qed.

Lemma after_first_slash_app (p rest : string) :
  contains "/" p = false -> Eks.after_first_slash (p ++ "/" ++ rest) = Some rest.
Proof.
  induction p as [|c p IH]; intro H; [reflexivity|].
  cbn [contains] in H. apply orb_false_iff in H as [Hc H].
  change (String c p ++ "/" ++ rest) with (String c (p ++ "/" ++ rest)).
  cbn [Eks.after_first_slash]. rewrite (IH H).
  destruct (Ascii.eqb c "/"%char) eqn:E; [|reflexivity].
  apply Ascii.eqb_eq in E. subst. cbn in Hc. destruct p; discriminate.
Qed.

Lemma contains_prefix (p s : string) : String.prefix p s = true -> contains p s = true.
Proof. destruct s; cbn [contains]; intro H; rewrite H; reflexivity. Qed.

Lemma contains_middle (p a b : string) : contains p (a ++ p ++ b) = true.
Proof.
  induction a as [|c a IH].
  - exact (contains_prefix _ _ (Facts.prefix_app p b)).
  - change (String c a ++ p ++ b) with (String c (a ++ p ++ b)).
    cbn [contains]. rewrite IH. apply orb_true_r.
Qed.

(** ** Loops and errors *)

Lemma bind_err {A B} (c : M A) (k : A -> M B) log e log' :
  c log = (inl e, log') -> bind c k log = (inl e, log').
Proof. intro H. unfold bind. now rewrite H. Qed.

(** [mapM] stops at the first element whose step fails *)
Lemma mapM_first_error {A B} (f : A -> M B) (P Q : A -> Prop) (e : PyError)
    (l : list A) (log : list res) :
  (forall x log, P x -> exists y, f x log = (inr y, log)) ->
  (forall x log, Q x -> f x log = (inl e, log)) ->
  Forall (fun x => P x \/ Q x) l -> Exists Q l -> mapM f l log = (inl e, log).
Proof.
  intros Hp Hq Hl He. revert log. induction He as [x l Hx | x l He IH]; intro log.
  - cbn [mapM]. unfold bind at 1. rewrite (Hq x log Hx). reflexivity.
  - inversion Hl as [|? ? Hx Hl']; subst. cbn [mapM]. unfold bind at 1.
    destruct Hx as [Hx|Hx].
    + destruct (Hp x log Hx) as [y ->]. unfold bind at 1. rewrite (IH Hl' log). reflexivity.
    + rewrite (Hq x log Hx). reflexivity.
Qed.

(** [mapM] of a step that declares nothing and cannot fail on [l] *)
Lemma mapM_pure_map_in {A B C} (f : B -> M C) (g : A -> B) (h : A -> C)
    (l : list A) (log : list res) :
  (forall x, In x l -> forall log, f (g x) log = (inr (h x), log)) ->
  mapM f (map g l) log = (inr (map h l), log).
Proof.
  intro Hf. induction l as [|x l IH]; [reflexivity|].
  cbn [map mapM]. unfold bind at 1. rewrite (Hf x (or_introl eq_refl)).
  unfold bind at 1. rewrite IH; [reflexivity|].
  intros y Hy. apply Hf. right. exact Hy.
Qed.

Lemma mapM_host_names_missing (hs : list val) (log : list res) :
  Forall is_dict hs -> Exists lacks_name hs ->
  mapM (fun h => hn <- py_getitem h "name" ;; ret ("`" ++ py_str hn ++ "`")) hs log
  = (inl (KeyError "name"), log).
Proof.
  intros Hd He.
  apply (mapM_first_error _ (fun h => exists kvs v, h = VDict kvs /\ assoc "name" kvs = Some v)
           lacks_name).
  - intros x l [kvs [v [-> Hv]]]. exists ("`" ++ py_str v ++ "`"). cbn. rewrite Hv. reflexivity.
  - intros x l [kvs [-> Hv]]. cbn. rewrite Hv. reflexivity.
  - eapply Forall_impl; [|exact Hd]. intros x [kvs ->].
    destruct (assoc "name" kvs) as [v|] eqn:E;
      [left; exists kvs, v; auto | right; exists kvs; auto].
  - exact He.
Qed.

Lemma mapM_user_entries (us : list string) (log : list res) :
  mapM (fun user =>
      uname <- split_last user ;;
      ret (VDict [("userarn", user); ("username", uname);
                  ("groups", VList [VStr "system:masters"])])) (map VStr us) log
  = (inr (map user_entry us), log).
Proof. apply mapM_pure_map_in. intros; reflexivity. Qed.

Lemma assoc_nodup (kvs : list (string * val)) (kv : string * val) :
  NoDup (map fst kvs) -> In kv kvs -> assoc (fst kv) kvs = Some (snd kv).
Proof.
  induction kvs as [|[k v] kvs IH]; intros Hnd Hin; [destruct Hin|].
  inversion Hnd as [|? ? Hk Hnd']; subst. cbn [assoc].
  destruct Hin as [<-|Hin].
  - cbn [fst snd]. rewrite String.eqb_refl. reflexivity.
  - destruct (String.eqb (fst kv) k) eqn:E.
    + apply String.eqb_eq in E. subst k. exfalso. apply Hk. apply in_map. exact Hin.
    + apply IH; assumption.
Qed.

Lemma mapM_asg_tags (kvs : list (string * val)) (l : list (string * val)) (log : list res) :
  (forall kv, In kv l -> assoc (fst kv) kvs = Some (snd kv)) ->
  mapM (fun k => v <- py_getitem (VDict kvs) k ;; ret (Eks.asg_tag (VStr k) v)) (map fst l) log
  = (inr (map (fun kv => Eks.asg_tag (VStr (fst kv)) (snd kv)) l), log).
Proof.
  intro Hl. apply mapM_pure_map_in. intros [k v] Hin log'.
  unfold bind. cbn [py_getitem fst snd].
  rewrite (Hl (k, v) Hin : assoc k kvs = Some v). reflexivity.
Qed.

Lemma dvo_step_eq name zone zone_id i o log :
  Certs.dvo_step name (VStr zone) zone_id i (dvo_of o) log
  = (inr tt, app log (if contains zone (fst (fst o))
                      then [dvo_record name zone zone_id i o] else [])).
Proof.
  destruct o as [[rrn rt] rv]. cbn [fst].
  unfold Certs.dvo_step, dvo_of, dvo. cbn.
  destruct (contains zone rrn); cbn; [reflexivity | now rewrite app_nil_r].
Qed.

(** walk [EKS.__init__], leaving one goal per declaration *)
Ltac eks_walk :=
  unfold Eks.EKS, Eks.attach; cbv zeta;
  repeat (Facts.decl_ok_walk;
          try match goal with
              | |- decl_ok _ (py_merge _ _) =>
                  apply Facts.decl_ok_pure; unfold py_merge; Facts.pure_log
              | |- decl_ok _ (Eks.py_keys _) =>
                  apply Facts.decl_ok_pure; unfold Eks.py_keys; Facts.pure_log
              end).

(** ** [KubernetesService] *)

(** With an empty [hostname_list], [KubernetesService] declares no
    IngressRoute and no DNS record. *)
Theorem no_ingress_without_hosts (name : string) (args : list (string * val))
    (Hh : assoc "hostname_list" args = Some (VList [])) :
  Forall (fun r => rtype r <> IngressRoute_ty /\ rtype r <> Record_ty)
         (snd (run (KubernetesService name args))).
Proof.
  apply (fun H : decl_ok _ (KubernetesService name args) => H [] (Forall_nil _)).
  unfold KubernetesService. Facts.decl_ok_walk.
  all: try (unfold IngressRoute_ty, Record_ty; split; discriminate).
  all: repeat match goal with
       | H : getattr _ "hostname_list" _ = (inr _, _) |- _ =>
           apply (Facts.getattr_inv _ _ _ _ _ _ Hh) in H as [-> _]
       end.
  all: match goal with
       | H : py_len (VList []) _ = (inr _, _) |- _ => cbn in H; inversion H; subst
       end.
  all: discriminate.
Qed.

Lemma no_ingress_without_hosts_witness :
  assoc "hostname_list" (sample_app_args (VList []) (VList [])) = Some (VList [])
  /\ Forall (fun r => rtype r <> IngressRoute_ty /\ rtype r <> Record_ty)
            (snd (run (KubernetesService "demoapp-app" (sample_app_args (VList []) (VList []))))).
Proof. split; [reflexivity|]. apply no_ingress_without_hosts. reflexivity. Defined.

(** Every namespaced Kubernetes object [KubernetesService] declares (the
    ServiceAccount, Secret, Deployment, HPA, Service and IngressRoute)
    carries the [namespace] argument in its metadata. *)
Theorem namespaced_objects_in_namespace (name : string) (args : list (string * val)) (ns : val)
    (Hns : assoc "namespace" args = Some ns) :
  Forall (fun r => namespaced_ty (rtype r) = true ->
                   exists md, prop r "metadata" = Some (VDict md) /\ assoc "namespace" md = Some ns)
         (snd (run (KubernetesService name args))).
Proof.
  apply (fun H : decl_ok _ (KubernetesService name args) => H [] (Forall_nil _)).
  unfold KubernetesService. Facts.decl_ok_walk.
  all: cbn; intro Hty; try discriminate Hty.
  all: repeat match goal with
       | H : getattr _ "namespace" _ = (inr _, _) |- _ =>
           apply (Facts.getattr_inv _ _ _ _ _ _ Hns) in H as [-> _]
       end.
  all: eexists; split; reflexivity.
Qed.


Lemma namespaced_objects_in_namespace_witness :
  assoc "namespace" (sample_app_args (VList []) (VList [])) = Some (VOut "kubernetes:core/v1:Namespace" "dev-ns" "metadata.name")
  /\ Forall (fun r => namespaced_ty (rtype r) = true ->
                      exists md, prop r "metadata" = Some (VDict md)
                                 /\ assoc "namespace" md = Some (VOut "kubernetes:core/v1:Namespace" "dev-ns" "metadata.name"))
            (snd (run (KubernetesService "demoapp-app" (sample_app_args (VList []) (VList []))))).
Proof. split; [reflexivity|]. apply namespaced_objects_in_namespace. reflexivity. Defined.

(** The Deployment is named after the component and its selector and pod
    template carry the label [app.kubernetes.io/name = name]; the Service
    selects pods by that same label, and the HPA scales the Deployment
    [name]. *)
Theorem workload_labels_consistent (name : string) (args : list (string * val)) :
  Forall (fun r =>
     (rtype r = Deployment_ty ->
        get_path (VDict (rprops r)) ["metadata"; "name"] = Some (VStr name)
        /\ get_path (VDict (rprops r)) ["spec"; "selector"; "match_labels"] = Some (app_label name)
        /\ get_path (VDict (rprops r)) ["spec"; "template"; "metadata"; "labels"]
           = Some (app_label name))
     /\ (rtype r = Service_ty ->
           get_path (VDict (rprops r)) ["spec"; "selector"] = Some (app_label name))
     /\ (rtype r = HPA_ty ->
           get_path (VDict (rprops r)) ["spec"; "scale_target_ref"]
           = Some (VDict [("api_version", VStr "apps/v1"); ("kind", VStr "Deployment");
                          ("name", VStr name)])))
     (snd (run (KubernetesService name args))).
Proof.
  apply (fun H : decl_ok _ (KubernetesService name args) => H [] (Forall_nil _)).
  unfold KubernetesService. Facts.decl_ok_walk.
  all: unfold Deployment_ty, Service_ty, HPA_ty; cbn.
  all: refine (conj _ (conj _ _)); intro Hty; try discriminate Hty.
  all: first [split; [reflexivity | split; reflexivity] | reflexivity].
Qed.

(** The Deployment's single container exposes one port per entry of
    [container_ports], named [<port>-tcp], and the Service exposes the same
    ports under the same names, in the same order. *)
Theorem service_ports_match_container (name : string) (args : list (string * val))
    (ps : list val) (Hp : assoc "container_ports" args = Some (VList ps)) :
  Forall (fun r =>
     (rtype r = Deployment_ty ->
        exists c, get_path (VDict (rprops r)) ["spec"; "template"; "spec"; "containers"]
                  = Some (VList [c])
        /\ get_path c ["ports"]
           = Some (VList (map (fun p => VDict [("name", VStr (py_str p ++ "-tcp"));
                                              ("container_port", p)]) ps)))
     /\ (rtype r = Service_ty ->
           get_path (VDict (rprops r)) ["spec"; "ports"]
           = Some (VList (map (fun p => VDict [("port", p); ("name", VStr (py_str p ++ "-tcp"))])
                              ps))))
     (snd (run (KubernetesService name args))).
Proof.
  apply (fun H : decl_ok _ (KubernetesService name args) => H [] (Forall_nil _)).
  unfold KubernetesService. Facts.decl_ok_walk.
  all: unfold Deployment_ty, Service_ty; cbn.
  all: repeat match goal with
       | H : getattr _ "container_ports" _ = (inr _, _) |- _ =>
           apply (Facts.getattr_inv _ _ _ _ _ _ Hp) in H as [-> _]
       | H : py_iter (VList _) _ = (inr _, _) |- _ => cbn in H; inversion H; subst; clear H
       end.
  all: split; intro Hty; try discriminate Hty.
  all: try (eexists; split; reflexivity).
  all: reflexivity.
Qed.


Lemma service_ports_match_container_witness :
  assoc "container_ports" (sample_app_args (VList []) (VList [])) = Some (VList [VInt 3000])
  /\ Forall (fun r =>
       (rtype r = Deployment_ty ->
          exists c, get_path (VDict (rprops r)) ["spec"; "template"; "spec"; "containers"]
                    = Some (VList [c])
          /\ get_path c ["ports"]
             = Some (VList (map (fun p => VDict [("name", VStr (py_str p ++ "-tcp"));
                                                ("container_port", p)]) [VInt 3000])))
       /\ (rtype r = Service_ty ->
             get_path (VDict (rprops r)) ["spec"; "ports"]
             = Some (VList (map (fun p => VDict [("port", p); ("name", VStr (py_str p ++ "-tcp"))])
                                [VInt 3000]))))
       (snd (run (KubernetesService "demoapp-app" (sample_app_args (VList []) (VList []))))).
Proof. split; [reflexivity|]. apply service_ports_match_container. reflexivity. Defined.

(** If [kube_issuer] and [namespace] are outputs (the stack passes stack
    reference outputs) and some entry of [hostname_list] is a dict without
    a ["name"] key, the constructor raises [KeyError('name')] while
    building the IngressRoute rule; the Deployment, HPA and Service are already declared by then, and
    no IngressRoute or DNS record is. *)
Theorem host_without_name_fails (name : string)
    (base_tags app_name : val) (ports : list val) (env : list (string * val))
    (image kube_issuer namespace openid_connector public_load_balancer secrets_data : val)
    (perms : list val) (replicas : val) (hs : list val) (ingress_port : val)
    (Hki : is_output kube_issuer = true) (Hns : is_output namespace = true)
    (Hd : Forall is_dict hs) (Hm : Exists lacks_name hs) :
  exists log,
    run (KubernetesService name
           (app_attrs base_tags app_name (VList ports) (VDict env) image kube_issuer namespace
                      openid_connector public_load_balancer secrets_data (VList perms)
                      replicas (VList hs) ingress_port))
    = (inl (KeyError "name"), log)
    /\ find_res Service_ty log <> None
    /\ Forall (fun r => rtype r <> IngressRoute_ty /\ rtype r <> Record_ty) log.
Proof.
  destruct hs as [|h0 hs0]; [inversion Hm|].
  destruct kube_issuer; try discriminate Hki; destruct namespace; try discriminate Hns.
  all: unfold KubernetesService, run.
  all: cbn -[mapM].
  all: destruct perms; cbn -[mapM]; eexists;
  rewrite (bind_err _ _ _ _ _ (mapM_host_names_missing _ _ Hd Hm));
  (split; [reflexivity|]); cbn;
  (split; [discriminate|]);
  repeat constructor; discriminate.
Qed.


Lemma host_without_name_fails_witness :
  is_output (VOut "pulumi:pulumi:StackReference" "k8s" "cluster_issuer") = true
  /\ is_output (VOut "kubernetes:core/v1:Namespace" "dev-ns" "metadata.name") = true
  /\ Forall is_dict [VDict [("create_record", VBool false)]]
  /\ Exists lacks_name [VDict [("create_record", VBool false)]]
  /\ exists log,
       run (KubernetesService "demoapp-app"
              (app_attrs (VDict []) (VStr "demoapp") (VList [VInt 3000]) (VDict []) (VStr "img")
                         (VOut "pulumi:pulumi:StackReference" "k8s" "cluster_issuer")
                         (VOut "kubernetes:core/v1:Namespace" "dev-ns" "metadata.name")
                         (VStr "arn") (VStr "lb") (VDict [])
                         (VList []) (VInt 1) (VList [VDict [("create_record", VBool false)]])
                         (VInt 3000)))
       = (inl (KeyError "name"), log)
       /\ find_res Service_ty log <> None
       /\ Forall (fun r => rtype r <> IngressRoute_ty /\ rtype r <> Record_ty) log.
Proof.
  assert (Hd : Forall is_dict [VDict [("create_record", VBool false)]]).
  { constructor; [exists [("create_record", VBool false)]; reflexivity | constructor]. }
  assert (Hm : Exists lacks_name [VDict [("create_record", VBool false)]]).
  { constructor. exists [("create_record", VBool false)]. split; reflexivity. }
  split; [reflexivity|]. split; [reflexivity|].
  split; [exact Hd|]. split; [exact Hm|].
  exact (host_without_name_fails "demoapp-app" (VDict []) (VStr "demoapp") [VInt 3000] []
           (VStr "img") (VOut "pulumi:pulumi:StackReference" "k8s" "cluster_issuer")
           (VOut "kubernetes:core/v1:Namespace" "dev-ns" "metadata.name")
           (VStr "arn") (VStr "lb") (VDict [])
           [] (VInt 1) _ (VInt 3000) eq_refl eq_refl Hd Hm).
Defined.

(** With [kube_issuer] and [namespace] outputs and [hostname_list = None]
    the constructor raises [TypeError] at [len(self.hostname_list)], after declaring the Deployment, HPA and
    Service, and before any IngressRoute or DNS record. *)
Theorem hosts_none_type_error (name : string)
    (base_tags app_name : val) (ports : list val) (env : list (string * val))
    (image kube_issuer namespace openid_connector public_load_balancer secrets_data : val)
    (perms : list val) (replicas ingress_port : val)
    (Hki : is_output kube_issuer = true) (Hns : is_output namespace = true) :
  exists log,
    run (KubernetesService name
           (app_attrs base_tags app_name (VList ports) (VDict env) image kube_issuer namespace
                      openid_connector public_load_balancer secrets_data (VList perms)
                      replicas VNone ingress_port))
    = (inl (TypeError "object has no len()"), log)
    /\ find_res Deployment_ty log <> None
    /\ find_res HPA_ty log <> None
    /\ find_res Service_ty log <> None
    /\ Forall (fun r => rtype r <> IngressRoute_ty /\ rtype r <> Record_ty) log.
Proof.
  destruct kube_issuer; try discriminate Hki; destruct namespace; try discriminate Hns;
  unfold KubernetesService, run;
  cbn;
  destruct perms; cbn;
  eexists; (split; [reflexivity|]); cbn;
  (split; [discriminate|]); (split; [discriminate|]); (split; [discriminate|]);
  repeat constructor; discriminate.
Qed.

Lemma hosts_none_type_error_witness :
  is_output (VOut "pulumi:pulumi:StackReference" "k8s" "cluster_issuer") = true
  /\ is_output (VOut "kubernetes:core/v1:Namespace" "dev-ns" "metadata.name") = true
  /\ exists log,
    run (KubernetesService "demoapp-app"
           (app_attrs (VDict []) (VStr "demoapp") (VList [VInt 3000]) (VDict []) (VStr "img")
                      (VOut "pulumi:pulumi:StackReference" "k8s" "cluster_issuer")
                      (VOut "kubernetes:core/v1:Namespace" "dev-ns" "metadata.name")
                      (VStr "arn") (VStr "lb") (VDict []) (VList [VStr "s3:GetObject"])
                      (VInt 1) VNone (VInt 3000)))
    = (inl (TypeError "object has no len()"), log)
    /\ find_res Deployment_ty log <> None
    /\ find_res HPA_ty log <> None
    /\ find_res Service_ty log <> None
    /\ Forall (fun r => rtype r <> IngressRoute_ty /\ rtype r <> Record_ty) log.
Proof.
  split; [reflexivity|]. split; [reflexivity|].
  exact (hosts_none_type_error "demoapp-app" (VDict []) (VStr "demoapp") [VInt 3000] []
           (VStr "img") (VOut "pulumi:pulumi:StackReference" "k8s" "cluster_issuer")
           (VOut "kubernetes:core/v1:Namespace" "dev-ns" "metadata.name")
           (VStr "arn") (VStr "lb") (VDict []) [VStr "s3:GetObject"] (VInt 1) (VInt 3000)
           eq_refl eq_refl).
Defined.

(** [KubernetesService] calls [.apply] on [kube_issuer] and on [namespace]
    (lines 91 and 94): when either is a plain value rather than an output,
    the constructor raises [AttributeError] before it declares the IAM
    role or any Kubernetes object; only the component itself, and its
    Policy when [service_permissions] is non-empty, are declared. *)
Theorem plain_issuer_or_namespace_fails (name : string)
    (base_tags app_name : val) (ports : list val) (env : list (string * val))
    (image kube_issuer namespace openid_connector public_load_balancer secrets_data : val)
    (perms : list val) (replicas hosts ingress_port : val)
    (Hplain : is_output kube_issuer = false \/ is_output namespace = false) :
  exists log,
    run (KubernetesService name
           (app_attrs base_tags app_name (VList ports) (VDict env) image kube_issuer namespace
                      openid_connector public_load_balancer secrets_data (VList perms)
                      replicas hosts ingress_port))
    = (inl (AttributeError "object has no attribute 'apply'"), log)
    /\ Forall (fun r => rtype r = "KubernetesService" \/ rtype r = "aws:iam/policy:Policy") log.
Proof.
  unfold KubernetesService, run.
  cbn -[has_apply].
  destruct perms; cbn -[has_apply];
  destruct kube_issuer, namespace; cbn in Hplain;
    try (destruct Hplain as [Hp|Hp]; discriminate Hp);
    cbn; eexists; (split; [reflexivity|]);
    repeat (apply Forall_cons; [first [left; reflexivity | right; reflexivity] |]);
    apply Forall_nil.
Qed.

Lemma plain_issuer_or_namespace_fails_witness :
  (is_output (VStr "https://oidc.eks.example/id/ABC") = false
   \/ is_output (VStr "demoapp") = false)
  /\ exists log,
    run (KubernetesService "demoapp-app"
           (app_attrs (VDict []) (VStr "demoapp") (VList [VInt 3000]) (VDict []) (VStr "img")
                      (VStr "https://oidc.eks.example/id/ABC") (VStr "demoapp")
                      (VStr "arn") (VStr "lb") (VDict []) (VList [VStr "s3:GetObject"])
                      (VInt 1) (VList []) (VInt 3000)))
    = (inl (AttributeError "object has no attribute 'apply'"), log)
    /\ Forall (fun r => rtype r = "KubernetesService" \/ rtype r = "aws:iam/policy:Policy") log.
Proof.
  assert (Hp : is_output (VStr "https://oidc.eks.example/id/ABC") = false
               \/ is_output (VStr "demoapp") = false) by (left; reflexivity).
  split; [exact Hp|].
  exact (plain_issuer_or_namespace_fails "demoapp-app" (VDict []) (VStr "demoapp") [VInt 3000] []
           (VStr "img") (VStr "https://oidc.eks.example/id/ABC") (VStr "demoapp")
           (VStr "arn") (VStr "lb") (VDict []) [VStr "s3:GetObject"] (VInt 1) (VList [])
           (VInt 3000) Hp).
Defined.


(** ** [ServicesResources], [KAuth] and the user-name helper *)

(** [username] of a [mapUsers] entry is the part of the ARN after its last
    ['/'] ([split('/')[-1]]): for [p/u] with no ['/'] in [u] it is [u], a
    string with no ['/'] is kept whole, and the result never contains a
    ['/']. *)
Theorem user_name_is_last_segment :
  (forall p u, contains "/" u = false -> Svcs.last_segment (p ++ "/" ++ u) "" = u)
  /\ (forall u, contains "/" u = false -> Svcs.last_segment u "" = u)
  /\ (forall s, contains "/" (Svcs.last_segment s "") = false).
Proof.
  refine (conj _ (conj _ _)).
  - intros p u H. rewrite last_segment_app. apply last_segment_no_slash. exact H.
  - intros u H. apply last_segment_no_slash. exact H.
  - intro s. apply last_segment_acc_no_slash. reflexivity.
Qed.


Lemma user_name_is_last_segment_witness :
  Svcs.last_segment ("arn:aws:iam::1:user" ++ "/" ++ "admin") "" = "admin".
Proof. apply (proj1 user_name_is_last_segment). reflexivity. Defined.


(** When [kube_users] is a list of strings, the aws-auth ConfigMap that
    [ServicesResources] declares has as [data.mapUsers] the YAML dump of one
    entry per user, in order: its ARN, its last path segment as
    [username], and the group [system:masters]. *)
Theorem svcs_map_users (name : string) (args : list (string * val)) (users : list string)
    (Hu : assoc "kube_users" args = Some (VList (map VStr users))) :
  Forall (fun r => rtype r = ConfigMap_ty ->
                   get_path (VDict (rprops r)) ["data"; "mapUsers"]
                   = Some (VCall "yaml.dump" [VList (map user_entry users)]))
         (snd (run (ServicesResources name args))).
Proof.
  apply (fun H : decl_ok _ (ServicesResources name args) => H [] (Forall_nil _)).
  unfold ServicesResources. Facts.decl_ok_walk.
  all: unfold ConfigMap_ty; cbn [rtype]; intro Hty; try discriminate Hty.
  repeat match goal with
  | H : getattr _ "kube_users" _ = (inr _, _) |- _ =>
      apply (Facts.getattr_inv _ _ _ _ _ _ Hu) in H as [-> _]
  | H : py_iter (VList _) _ = (inr _, _) |- _ => cbn in H; inversion H; subst; clear H
  | H : mapM _ (map VStr _) _ = (inr _, _) |- _ =>
      rewrite mapM_user_entries in H; inversion H; subst; clear H
  end.
  reflexivity.
Qed.



Lemma svcs_map_users_witness :
  assoc "kube_users" (svcs_attrs (VDict []) (VStr "2.20.0") (VList [VStr "arn:aws:iam::1:user/admin"])
                       (VStr "alb") (VStr "vpc-1") (VOut "aws:iam/role:Role" "dev-eks-worker-role" "arn") (VStr "23.0.0"))
  = Some (VList (map VStr ["arn:aws:iam::1:user/admin"]))
  /\ Forall (fun r => rtype r = ConfigMap_ty ->
                      get_path (VDict (rprops r)) ["data"; "mapUsers"]
                      = Some (VCall "yaml.dump" [VList (map user_entry ["arn:aws:iam::1:user/admin"])]))
            (snd (run (ServicesResources "dev-svcs"
                         (svcs_attrs (VDict []) (VStr "2.20.0") (VList [VStr "arn:aws:iam::1:user/admin"])
                            (VStr "alb") (VStr "vpc-1") (VOut "aws:iam/role:Role" "dev-eks-worker-role" "arn") (VStr "23.0.0")))))
  /\ find_res ConfigMap_ty
       (snd (run (ServicesResources "dev-svcs"
                    (svcs_attrs (VDict []) (VStr "2.20.0") (VList [VStr "arn:aws:iam::1:user/admin"])
                       (VStr "alb") (VStr "vpc-1") (VOut "aws:iam/role:Role" "dev-eks-worker-role" "arn") (VStr "23.0.0"))))) <> None.
Proof.
  split; [reflexivity|]. split; [apply svcs_map_users; reflexivity|].
  vm_compute. discriminate.
Defined.


(** With [kube_users = None], [ServicesResources] raises [TypeError] when it
    iterates over the users, after registering only the component itself:
    no namespace, Helm release or ConfigMap is declared. *)
Theorem svcs_users_unset_fails (name : string)
    (base_tags ebs_csi_chart_version public_alb vpc_id worker_role_arn traefik_chart_version : val) :
  run (ServicesResources name (svcs_attrs base_tags ebs_csi_chart_version VNone public_alb
                                 vpc_id worker_role_arn traefik_chart_version))
  = (inl (TypeError "object is not iterable"), [mkRes "ServicesResources" name [] []]).
Proof. reflexivity. Qed.


(** [create_records] on a host entry without a [create_records] key and
    with name [label.cloudlan.net] ([label] free of dots) declares exactly
    one CNAME record named [label] in the [cloudlan.net] zone, pointing at
    the public ALB with TTL 300. *)
Theorem create_records_strips_zone (name : string) (public_alb : val)
    (kvs : list (string * val)) (label : string) (log : list res)
    (Hc : assoc "create_records" kvs = None)
    (Hn : assoc "name" kvs = Some (VStr (label ++ ".cloudlan.net")))
    (Hl : contains "." label = false) :
  create_records name public_alb (VDict kvs) log
  = (inr tt, app log
       [mkRes Record_ty (name ++ "-" ++ label ++ "-record")
          [("name", VStr label); ("records", VList [public_alb]); ("ttl", VInt 300);
           ("type", VStr "CNAME");
           ("zone_id", VOut "aws:route53/getZone:getZone" "cloudlan.net" "zone_id")] []]).
Proof.
  pose proof (first_segment_no_dot label "cloudlan.net" Hl) as Hf.
  pose proof (py_str_replace_suffix ".cloudlan.net" "" label ltac:(discriminate)
                (no_dot_no_straddle label "cloudlan.net" Hl)) as Hr.
  rewrite append_empty_r in Hr.
  unfold create_records, bind, py_get, py_getitem, split_first, py_replace.
  rewrite Hc. cbn [truthy when ret]. rewrite Hn. cbn [ret].
  change (label ++ "." ++ "cloudlan.net") with (label ++ ".cloudlan.net") in Hf.
  rewrite Hf. change ("." ++ "cloudlan.net") with ".cloudlan.net". rewrite Hr. reflexivity.
Qed.



Lemma create_records_strips_zone_witness :
  create_records "dev-app" (VStr "alb.example") (VDict [("name", VStr "demo.cloudlan.net")]) []
  = (inr tt, app []
       [mkRes Record_ty ("dev-app" ++ "-" ++ "demo" ++ "-record")
          [("name", VStr "demo"); ("records", VList [VStr "alb.example"]); ("ttl", VInt 300);
           ("type", VStr "CNAME");
           ("zone_id", VOut "aws:route53/getZone:getZone" "cloudlan.net" "zone_id")] []]).
Proof. apply create_records_strips_zone; reflexivity. Defined.


(** [create_records] declares nothing when the entry's [create_records] is
    present and falsy; when it is absent or truthy and the entry has no
    [name], it raises [AttributeError] on [.split], declaring nothing. *)
Theorem create_records_edge :
  (forall name public_alb kvs log v,
     assoc "create_records" kvs = Some v -> truthy v = false ->
     create_records name public_alb (VDict kvs) log = (inr tt, log))
  /\ (forall name public_alb kvs log,
        match assoc "create_records" kvs with Some v => truthy v | None => true end = true ->
        assoc "name" kvs = None ->
        create_records name public_alb (VDict kvs) log
        = (inl (AttributeError "object has no attribute 'split'"), log)).
Proof.
  split.
  - intros name public_alb kvs log v Hc Hv.
    unfold create_records, bind, py_get. rewrite Hc. cbn [ret]. rewrite Hv. reflexivity.
  - intros name public_alb kvs log Hc Hn.
    unfold create_records, bind, py_get.
    destruct (assoc "create_records" kvs) as [v|]; cbn [ret]; rewrite ?Hc; cbn [truthy when];
      unfold bind, py_get; rewrite Hn; reflexivity.
Qed.



Lemma create_records_edge_witness :
  create_records "dev-app" (VStr "alb") (VDict [("create_records", VBool false)]) [] = (inr tt, [])
  /\ create_records "dev-app" (VStr "alb") (VDict [("create_records", VBool true)]) []
     = (inl (AttributeError "object has no attribute 'split'"), []).
Proof.
  split.
  - apply (proj1 create_records_edge) with (v := VBool false); reflexivity.
  - apply (proj2 create_records_edge); reflexivity.
Defined.


(** The services stack program never succeeds: it fails with the
    [TypeError] that [ServicesArgs] raises for the unexpected keyword
    [private_subnets], unless it fails earlier on a missing
    [eks_ebs_csi_chart_version] ([ConfigMissingError]) or on a
    [kube_users] value that is not JSON ([ConfigTypeError]); in every case
    only the two stack references are declared. *)
Theorem services_stack_always_fails json_loads cfg envName :
  exists e,
    run (ServicesStack.main json_loads cfg envName) = (inl e, services_stack_prelude)
    /\ (e = private_subnets_error
        \/ e = ConfigMissingError "eks_ebs_csi_chart_version"
        \/ e = ConfigTypeError "kube_users")
    /\ (cfg "eks_ebs_csi_chart_version" <> None ->
        get_object_ok json_loads cfg "kube_users" = true ->
        e = private_subnets_error).
Proof.
  unfold get_object_ok, ServicesStack.main, run, Config.config_require, Config.config_get_object.
  cbn [bind Config.StackReference declare declare_secret ret raise app].
  repeat match goal with
  | |- context [match cfg ?k with _ => _ end] => destruct (cfg k)
  | |- context [match json_loads ?s with _ => _ end] => destruct (json_loads s)
  end.
  all: cbn.
  all: eexists; split; [reflexivity|].
  all: split; [repeat (first [left; reflexivity | right]); reflexivity
              | intros; try discriminate; try congruence; try reflexivity].
Qed.



Lemma services_stack_always_fails_witness :
  exists e, run (ServicesStack.main (fun _ => Some (VList [])) (fun _ => Some "x") "dev")
            = (inl e, services_stack_prelude)
            /\ e = private_subnets_error.
Proof.
  destruct (services_stack_always_fails (fun _ => Some (VList [])) (fun _ => Some "x") "dev")
    as [e [H1 [_ H3]]].
  exists e. split; [exact H1|]. apply H3; [discriminate | reflexivity].
Defined.


(** [KAuth] declares the aws-auth ConfigMap whose [mapUsers] is the YAML
    dump of one entry per admin user (same entries as [ServicesResources])
    and whose [mapRoles] is derived from [worker_role_arn] by
    [get_node_role], the YAML dump of a single [system:nodes] role
    entry. *)
Theorem kauth_config_map (name : string) (args : list (string * val)) (us : list string) (w : val)
    (Hu : assoc "admin_users" args = Some (VList (map VStr us)))
    (Hw : assoc "worker_role_arn" args = Some w) :
  Forall (fun r => rtype r = ConfigMap_ty ->
                   get_path (VDict (rprops r)) ["data"]
                   = Some (VDict [("mapRoles", out_apply "node_role_yaml" Auth.node_role_yaml w);
                                  ("mapUsers", VCall "yaml.dump" [VList (map user_entry us)])]))
         (snd (run (Auth.KAuth name args)))
  /\ (forall r, Auth.node_role_yaml r = VCall "yaml.dump" [VList [node_role_entry r]]).
Proof.
  split; [|reflexivity].
  apply (fun H : decl_ok _ (Auth.KAuth name args) => H [] (Forall_nil _)).
  unfold Auth.KAuth. Facts.decl_ok_walk.
  all: unfold ConfigMap_ty; cbn [rtype]; intro Hty; try discriminate Hty.
  repeat match goal with
  | H : getattr _ "admin_users" _ = (inr _, _) |- _ =>
      apply (Facts.getattr_inv _ _ _ _ _ _ Hu) in H as [-> _]
  | H : getattr _ "worker_role_arn" _ = (inr _, _) |- _ =>
      apply (Facts.getattr_inv _ _ _ _ _ _ Hw) in H as [-> _]
  | H : py_iter (VList _) _ = (inr _, _) |- _ => cbn in H; inversion H; subst; clear H
  | H : mapM _ (map VStr _) _ = (inr _, _) |- _ =>
      rewrite mapM_user_entries in H; inversion H; subst; clear H
  end.
  reflexivity.
Qed.



Lemma kauth_config_map_witness :
  assoc "admin_users" [("admin_users", VList [VStr "arn:aws:iam::1:user/admin"]);
                       ("worker_role_arn", VOut "aws:iam/role:Role" "dev-eks-worker-role" "arn")]
  = Some (VList (map VStr ["arn:aws:iam::1:user/admin"]))
  /\ Forall (fun r => rtype r = ConfigMap_ty ->
                   get_path (VDict (rprops r)) ["data"]
                   = Some (VDict [("mapRoles", out_apply "node_role_yaml" Auth.node_role_yaml
                                                 (VOut "aws:iam/role:Role" "dev-eks-worker-role" "arn"));
                                  ("mapUsers", VCall "yaml.dump"
                                                 [VList (map user_entry ["arn:aws:iam::1:user/admin"])])]))
         (snd (run (Auth.KAuth "dev-auth"
                      [("admin_users", VList [VStr "arn:aws:iam::1:user/admin"]);
                       ("worker_role_arn", VOut "aws:iam/role:Role" "dev-eks-worker-role" "arn")])))
  /\ find_res ConfigMap_ty
       (snd (run (Auth.KAuth "dev-auth"
                    [("admin_users", VList [VStr "arn:aws:iam::1:user/admin"]);
                     ("worker_role_arn", VOut "aws:iam/role:Role" "dev-eks-worker-role" "arn")]))) <> None.
Proof.
  split; [reflexivity|]. split; [|vm_compute; discriminate].
  apply (proj1 (kauth_config_map "dev-auth"
                  [("admin_users", VList [VStr "arn:aws:iam::1:user/admin"]);
                   ("worker_role_arn", VOut "aws:iam/role:Role" "dev-eks-worker-role" "arn")]
                  ["arn:aws:iam::1:user/admin"] (VOut "aws:iam/role:Role" "dev-eks-worker-role" "arn")
                  eq_refl eq_refl)).
Defined.


(** ** [Certs] *)

(** [iterate_records] declares, in order, one validation record per
    domain-validation option whose resource record name contains the zone
    name, numbered by the option's position in the full list; the others
    are skipped. *)
Theorem iterate_records_matching (name zone : string) (zone_id : val)
    (os : list (string * string * string)) (log : list res) :
  Certs.iterate_records name (VStr zone) zone_id (map dvo_of os) log
  = (inr tt, app log (map (fun io => dvo_record name zone zone_id (fst io) (snd io))
                          (filter (fun io => contains zone (fst (fst (snd io))))
                                  (combine (seq 0 (length os)) os)))).
Proof.
  unfold Certs.iterate_records. generalize 0 as i. revert log.
  induction os as [|o os IH]; intros log i.
  - cbn. now rewrite app_nil_r.
  - cbn [map].
    change (for_enum (Certs.dvo_step name (VStr zone) zone_id) i (dvo_of o :: map dvo_of os) log)
      with (match Certs.dvo_step name (VStr zone) zone_id i (dvo_of o) log with
            | (inl e, l') => (inl e, l')
            | (inr _, l') => for_enum (Certs.dvo_step name (VStr zone) zone_id) (S i) (map dvo_of os) l'
            end).
    rewrite dvo_step_eq, IH, <- app_assoc. cbn [length seq combine filter snd].
    destruct (contains zone (fst (fst o))); reflexivity.
Qed.


(** A validation option named [label.zone.] gives a record named [label]:
    the suffix [.zone.] is removed, so the record is relative to the
    hosted zone. *)
Theorem dvo_record_name_stripped (name zone label rtype rvalue : string) (zone_id : val) (log : list res)
    (Hs : no_straddle ("." ++ zone ++ ".") label = true) :
  Certs.iterate_records name (VStr zone) zone_id [dvo (label ++ "." ++ zone ++ ".") rtype rvalue] log
  = (inr tt, app log
       [mkRes Record_ty (name ++ "-dvo-records-0")
          [("allow_overwrite", VBool true); ("name", VStr label); ("ttl", VInt 300);
           ("type", VStr rtype); ("records", VList [VStr rvalue]); ("zone_id", zone_id)] []]).
Proof.
  pose proof (iterate_records_matching name zone zone_id [(label ++ "." ++ zone ++ ".", rtype, rvalue)] log) as H.
  cbn [map dvo_of] in H. rewrite H. cbn [length seq combine filter fst snd].
  assert (Hc : contains zone (label ++ "." ++ zone ++ ".") = true)
    by (rewrite <- string_app_assoc; apply contains_middle).
  rewrite Hc. cbn [map fst snd]. unfold dvo_record.
  rewrite (py_str_replace_suffix ("." ++ zone ++ ".") "" label ltac:(discriminate) Hs).
  rewrite append_empty_r. reflexivity.
Qed.


Lemma dvo_record_name_stripped_witness :
  no_straddle ("." ++ "cloudlan.net" ++ ".") "_3f2a.demo" = true
  /\ Certs.iterate_records "dev-certs" (VStr "cloudlan.net") (VStr "Z1")
       [dvo ("_3f2a.demo" ++ "." ++ "cloudlan.net" ++ ".") "CNAME" "_x.acm-validations.aws."] []
     = (inr tt, app []
          [mkRes Record_ty ("dev-certs" ++ "-dvo-records-0")
             [("allow_overwrite", VBool true); ("name", VStr "_3f2a.demo"); ("ttl", VInt 300);
              ("type", VStr "CNAME"); ("records", VList [VStr "_x.acm-validations.aws."]);
              ("zone_id", VStr "Z1")] []]).
Proof.
  split; [vm_compute; reflexivity|].
  apply dvo_record_name_stripped. vm_compute. reflexivity.
Defined.


(** [CertArgs] defaults [zone_name] to [cloudlan.net]; with a falsy
    [alt_names] the certificate is requested with no subject alternative
    names, and the component declares nothing else synchronously. *)
Theorem certs_alt_names_default (name : string) (alt_names base_tags domain_name : val)
    (Ha : truthy alt_names = false) :
  exists args,
    Certs.CertArgs [("alt_names", alt_names); ("base_tags", base_tags); ("domain_name", domain_name)] []
    = (inr args, [])
    /\ assoc "zone_name" args = Some (VStr "cloudlan.net")
    /\ run (Certs.Certs name args)
       = (inr tt, [mkRes "Certs" name [] [];
                   mkRes Certs.Certificate_ty (name ++ "-certificate")
                     [("domain_name", domain_name); ("subject_alternative_names", VList []);
                      ("tags", base_tags); ("validation_method", VStr "DNS")] []]).
Proof.
  eexists. split; [reflexivity|]. split; [reflexivity|].
  unfold run, Certs.Certs. cbn. rewrite Ha. reflexivity.
Qed.


Lemma certs_alt_names_default_witness :
  truthy VNone = false /\
  exists args,
    Certs.CertArgs [("alt_names", VNone); ("base_tags", VDict []); ("domain_name", VStr "demo.cloudlan.net")] []
    = (inr args, [])
    /\ assoc "zone_name" args = Some (VStr "cloudlan.net")
    /\ run (Certs.Certs "dev-certs" args)
       = (inr tt, [mkRes "Certs" "dev-certs" [] [];
                   mkRes Certs.Certificate_ty ("dev-certs" ++ "-certificate")
                     [("domain_name", VStr "demo.cloudlan.net"); ("subject_alternative_names", VList []);
                      ("tags", VDict []); ("validation_method", VStr "DNS")] []]).
Proof. split; [reflexivity|]. apply certs_alt_names_default. reflexivity. Defined.


(** ** [RdsDb], the database and VPC stacks *)

(** What [RdsDb] declares does not depend on the [major_version] and
    [storage_size] arguments: they are read but never used. *)
Theorem rds_ignores_size_and_version (name : string)
    (base_tags cidr_blocks private_subnets vpc_id zone_name is_prod_database
     serverless_max_capacity major_version1 major_version2 storage_size1 storage_size2 : val) :
  run (Db.RdsDb name (rds_attrs base_tags cidr_blocks major_version1 private_subnets vpc_id
                        zone_name is_prod_database serverless_max_capacity storage_size1))
  = run (Db.RdsDb name (rds_attrs base_tags cidr_blocks major_version2 private_subnets vpc_id
                          zone_name is_prod_database serverless_max_capacity storage_size2)).
Proof. reflexivity. Qed.


(** Whenever the database stack program succeeds, its Aurora cluster skips
    the final snapshot, has no final snapshot identifier and scales up to
    3 ACUs, whatever the configuration. *)
Theorem db_stack_cluster_defaults json_loads cfg envName exports log
    (H : run (DbStack.main json_loads cfg envName) = (inr exports, log)) :
  exists r, find_res Db.Cluster_ty log = Some r
    /\ prop r "skip_final_snapshot" = Some (VBool true)
    /\ prop r "final_snapshot_identifier" = Some VNone
    /\ get_path (VDict (rprops r)) ["serverlessv2_scaling_configuration"; "max_capacity"]
       = Some (VInt 3).
Proof.
  unfold DbStack.main, run, Config.config_get_object, Config.config_require,
    Config.config_get in H.
  repeat match type of H with
  | context [match cfg ?k with _ => _ end] => destruct (cfg k) eqn:?
  | context [match json_loads ?s with _ => _ end] => destruct (json_loads s) eqn:?
  end.
  all: cbn in H; try discriminate H.
  all: inversion H; subst; clear H.
  all: eexists; split; [reflexivity | repeat split; reflexivity].
Qed.


Lemma db_stack_cluster_defaults_witness :
  exists exports log,
    run (DbStack.main (fun _ => None)
           (fun k => if String.eqb k "db_major_version" then Some "8.0" else None) "dev")
    = (inr exports, log)
    /\ exists r, find_res Db.Cluster_ty log = Some r
       /\ prop r "skip_final_snapshot" = Some (VBool true)
       /\ prop r "final_snapshot_identifier" = Some VNone
       /\ get_path (VDict (rprops r)) ["serverlessv2_scaling_configuration"; "max_capacity"]
          = Some (VInt 3).
Proof.
  do 2 eexists. split; [vm_compute; reflexivity|].
  eapply (db_stack_cluster_defaults (fun _ => None)
            (fun k => if String.eqb k "db_major_version" then Some "8.0" else None) "dev").
  vm_compute. reflexivity.
Defined.


(** The VPC stack program raises [IndexError] when no availability zone is
    available, [ConfigMissingError] when [vpc_cidr] is unset, and
    [ConfigTypeError] when [create_s3_endpoint] is none of [true], [True],
    [false] and [False],
    in each case before declaring anything. *)
Theorem vpc_stack_early_errors (valid_cidr : string -> bool) (cfg : string -> option string)
    (envName : string) :
  run (VpcStack.main valid_cidr cfg envName []) = (inl (IndexError "list index out of range"), [])
  /\ (forall available, available <> [] -> cfg "vpc_cidr" = None ->
        run (VpcStack.main valid_cidr cfg envName available)
        = (inl (ConfigMissingError "vpc_cidr"), []))
  /\ (forall available s, available <> [] -> cfg "vpc_cidr" <> None ->
        cfg "create_s3_endpoint" = Some s -> s <> "true" -> s <> "True" ->
        s <> "false" -> s <> "False" ->
        run (VpcStack.main valid_cidr cfg envName available)
        = (inl (ConfigTypeError "create_s3_endpoint"), [])).
Proof.
  refine (conj eq_refl (conj _ _)).
  - intros [|z zs] Hne Hc; [contradiction|].
    unfold run, VpcStack.main, VpcStack.first_and_last, Config.config_require. cbn [bind ret].
    rewrite Hc. reflexivity.
  - intros [|z zs] s Hne Hc Hs Ht HT Hf HF; [contradiction|].
    unfold run, VpcStack.main, VpcStack.first_and_last, Config.config_require,
      Config.config_get_bool. cbn [bind ret].
    destruct (cfg "vpc_cidr"); [|contradiction]. cbn [bind ret raise].
    rewrite Hs. cbn [existsb].
    apply String.eqb_neq in Ht, HT, Hf, HF. rewrite Ht, HT, Hf, HF.
    reflexivity.
Qed.



Lemma vpc_stack_early_errors_witness :
  run (VpcStack.main (fun _ => true) (fun _ => None) "dev" ["eu-west-1a"])
  = (inl (ConfigMissingError "vpc_cidr"), [])
  /\ run (VpcStack.main (fun _ => true)
          (fun k => if String.eqb k "create_s3_endpoint" then Some "yes" else Some "10.0.0.0/16")
          "dev" ["eu-west-1a"])
     = (inl (ConfigTypeError "create_s3_endpoint"), []).
Proof.
  split.
  - apply (proj1 (proj2 (vpc_stack_early_errors (fun _ => true) (fun _ => None) "dev")));
      [discriminate | reflexivity].
  - apply (proj2 (proj2 (vpc_stack_early_errors (fun _ => true)
             (fun k => if String.eqb k "create_s3_endpoint" then Some "yes" else Some "10.0.0.0/16")
             "dev"))) with (s := "yes");
    [discriminate | discriminate | reflexivity | discriminate | discriminate
    | discriminate | discriminate].
Defined.


(** ** [EKS] and the EKS stack *)

(** Whenever the EKS stack program succeeds, [eks_worker_max_size] and
    [eks_worker_min_size] are both set and the worker autoscaling group
    takes its [max_size] and [min_size] from them; the defaults 10 and 2 of
    [EksArgs] are never used, and with either setting unset the program
    fails (the autoscaling group requires both properties). *)
Theorem eks_stack_sizes json_loads cfg envName exports log
    (H : run (EksStack.main json_loads cfg envName) = (inr exports, log)) :
  exists mx mn r,
    cfg "eks_worker_max_size" = Some mx /\ cfg "eks_worker_min_size" = Some mn
    /\ find_res Eks.Asg_ty log = Some r
    /\ prop r "max_size" = Some (VStr mx)
    /\ prop r "min_size" = Some (VStr mn).
Proof.
  unfold EksStack.main, run, EksStack.config_require_object, EksStack.config_get_or,
    Config.config_get_object, Config.config_require, Config.config_get in H.
  repeat match type of H with
  | context [match cfg ?k with _ => _ end] => destruct (cfg k) eqn:?
  | context [match json_loads ?s with _ => _ end] => destruct (json_loads s) eqn:?
  end.
  all: cbn in H.
  all: try discriminate H.
  all: try match goal with v : val |- _ => destruct v end.
  all: cbn in H.
  all: try discriminate H.
  all: inversion H; subst; clear H.
  all: do 3 eexists; split; [reflexivity|]; split; [reflexivity|].
  all: split; [reflexivity | split; reflexivity].
Qed.


Lemma eks_stack_sizes_witness :
  exists exports log,
    run (EksStack.main eks_json eks_cfg "dev") = (inr exports, log)
    /\ exists mx mn r,
         eks_cfg "eks_worker_max_size" = Some mx /\ eks_cfg "eks_worker_min_size" = Some mn
         /\ find_res Eks.Asg_ty log = Some r
         /\ prop r "max_size" = Some (VStr mx)
         /\ prop r "min_size" = Some (VStr mn).
Proof.
  do 2 eexists. split; [vm_compute; reflexivity|].
  eapply (eks_stack_sizes eks_json eks_cfg "dev"). vm_compute. reflexivity.
Defined.


(** Whenever the EKS stack program succeeds, it exports [cluster_name] as
    [<env>-k], and the EKS cluster it declares is named
    [<env>-k-eks-cluster], runs the configured [eks_version], and has a
    public but no private API endpoint. *)
Theorem eks_stack_cluster json_loads cfg envName exports log
    (H : run (EksStack.main json_loads cfg envName) = (inr exports, log)) :
  assoc "cluster_name" exports = Some (VStr (envName ++ "-k"))
  /\ exists cl, find_res Eks.EksCluster_ty log = Some cl
     /\ rname cl = "eks-cluster"
     /\ prop cl "name" = Some (VStr ((envName ++ "-k") ++ "-eks-cluster"))
     /\ prop cl "version" = Some (cfg_val (cfg "eks_version"))
     /\ get_path (VDict (rprops cl)) ["vpc_config"; "endpoint_public_access"] = Some (VBool true)
     /\ get_path (VDict (rprops cl)) ["vpc_config"; "endpoint_private_access"] = Some (VBool false).
Proof.
  unfold EksStack.main, run, EksStack.config_require_object, EksStack.config_get_or,
    Config.config_get_object, Config.config_require, Config.config_get in H.
  repeat match type of H with
  | context [match cfg ?k with _ => _ end] => destruct (cfg k) eqn:?
  | context [match json_loads ?s with _ => _ end] => destruct (json_loads s) eqn:?
  end.
  all: cbn in H.
  all: try discriminate H.
  all: try match goal with v : val |- _ => destruct v end.
  all: cbn in H.
  all: try discriminate H.
  all: inversion H; subst; clear H.
  all: split; [reflexivity|].
  all: eexists; split; [reflexivity|].
  all: repeat split; reflexivity.
Qed.



Lemma eks_stack_cluster_witness :
  exists exports log,
    run (EksStack.main eks_json eks_cfg "dev") = (inr exports, log)
    /\ assoc "cluster_name" exports = Some (VStr ("dev" ++ "-k")).
Proof.
  do 2 eexists. split; [vm_compute; reflexivity|].
  refine (proj1 (eks_stack_cluster eks_json eks_cfg "dev" _ _ _)).
  vm_compute. reflexivity.
Defined.


(** With [base_tags] a dict with distinct keys, the worker autoscaling group
    carries four fixed propagated tags (its Name and the cluster-autoscaler
    discovery tags for [<name>-eks-cluster]) followed by one propagated tag
    per base tag, in the dict's order. *)
Theorem eks_asg_tags (name : string) (args : list (string * val)) (kvs : list (string * val))
    (Hb : assoc "base_tags" args = Some (VDict kvs)) (Hnd : NoDup (map fst kvs)) :
  Forall (fun r => rtype r = Eks.Asg_ty ->
            prop r "tags"
            = Some (VList ([Eks.asg_tag (VStr "Name") (VStr ((name ++ "-eks-cluster") ++ "-worker-node"));
                            Eks.asg_tag (VStr ("kubernetes.io/cluster/" ++ name ++ "-eks-cluster")) (VStr "owned");
                            Eks.asg_tag (VStr ("k8s.io/cluster-autoscaler/" ++ name ++ "-eks-cluster")) (VStr "owned");
                            Eks.asg_tag (VStr "k8s.io/cluster-autoscaler/enabled") (VStr "true")]
                           ++ map (fun kv => Eks.asg_tag (VStr (fst kv)) (snd kv)) kvs)))
         (snd (run (Eks.EKS name args))).
Proof.
  apply (fun H : decl_ok _ (Eks.EKS name args) => H [] (Forall_nil _)).
  eks_walk.
  all: unfold Eks.Asg_ty; cbn [rtype]; intro Hty; try discriminate Hty.
  repeat match goal with
  | H : getattr _ "base_tags" _ = (inr _, _) |- _ =>
      apply (Facts.getattr_inv _ _ _ _ _ _ Hb) in H as [-> _]
  | H : Eks.py_keys (VDict _) _ = (inr _, _) |- _ => cbn in H; inversion H; subst; clear H
  | H : mapM _ (map fst _) _ = (inr _, _) |- _ =>
      rewrite (mapM_asg_tags kvs kvs) in H;
      [inversion H; subst; clear H | intros; apply assoc_nodup; assumption]
  end.
  reflexivity.
Qed.



Lemma eks_asg_tags_witness :
  NoDup (map fst [("Environment", VStr "dev")])
  /\ Forall (fun r => rtype r = Eks.Asg_ty ->
            prop r "tags"
            = Some (VList ([Eks.asg_tag (VStr "Name") (VStr (("dev-k" ++ "-eks-cluster") ++ "-worker-node"));
                            Eks.asg_tag (VStr ("kubernetes.io/cluster/" ++ "dev-k" ++ "-eks-cluster")) (VStr "owned");
                            Eks.asg_tag (VStr ("k8s.io/cluster-autoscaler/" ++ "dev-k" ++ "-eks-cluster")) (VStr "owned");
                            Eks.asg_tag (VStr "k8s.io/cluster-autoscaler/enabled") (VStr "true")]
                           ++ map (fun kv => Eks.asg_tag (VStr (fst kv)) (snd kv)) [("Environment", VStr "dev")])))
         (snd (run (Eks.EKS "dev-k" (sample_eks_args (VDict [("Environment", VStr "dev")])))))
  /\ find_res Eks.Asg_ty
       (snd (run (Eks.EKS "dev-k" (sample_eks_args (VDict [("Environment", VStr "dev")]))))) <> None.
Proof.
  assert (Hnd : NoDup (map fst [("Environment", VStr "dev")])) by (constructor; [intros [] | constructor]).
  split; [exact Hnd|]. split.
  - exact (eks_asg_tags "dev-k" (sample_eks_args (VDict [("Environment", VStr "dev")]))
             [("Environment", VStr "dev")] eq_refl Hnd).
  - vm_compute. discriminate.
Defined.


(** [EKS] opens no other inbound traffic than: HTTP and HTTPS on the
    security groups that have ingress rules, and, through its security
    group rules, traffic from the node and cluster security groups or from
    [10.0.0.0/8]; every such rule is of type [ingress]. *)
Theorem eks_network_exposure (name : string) (args : list (string * val)) :
  Forall (fun r =>
     (rtype r = Eks.SecurityGroup_ty ->
        match prop r "ingress" with
        | None => True
        | Some (VList rules) => Forall (open_ports_only [80; 443]%Z) rules
        | Some _ => False
        end)
     /\ (rtype r = Eks.SecurityGroupRule_ty ->
           prop r "type" = Some (VStr "ingress")
           /\ (prop r "cidr_blocks" = Some (VList [VStr "10.0.0.0/8"])
               \/ exists g, prop r "source_security_group_id" = Some (VOut Eks.SecurityGroup_ty g "id"))))
    (snd (run (Eks.EKS name args))).
Proof.
  apply (fun H : decl_ok _ (Eks.EKS name args) => H [] (Forall_nil _)).
  eks_walk.
  all: unfold Eks.SecurityGroup_ty, Eks.SecurityGroupRule_ty; cbn [rtype prop rprops assoc String.eqb].
  all: split; intro Hty; try discriminate Hty.
  all: cbn; unfold Eks.sg_rule.
  all: try (repeat (apply Forall_cons;
                    [eexists; refine (conj _ (conj eq_refl eq_refl)); cbn; tauto |]);
            apply Forall_nil).
  all: try (split; [reflexivity | first [left; reflexivity | right; eexists; reflexivity]]).
  all: exact I.
Qed.


(** For an OIDC provider ARN [provider/host_path], the trust policy of the
    cluster-autoscaler role federates that ARN and conditions on
    [host_path:sub] equal to the [kube-system:cluster-autoscaler] service
    account: the same condition key the application's service-account role
    builds from the issuer URL [https://host_path]. *)
Theorem autoscaler_trust_matches_app (provider host_path : string)
    (Hp : contains "/" provider = false) (Hh : contains "https://" host_path = false) :
  Eks.autoscaler_assume_policy (VStr (provider ++ "/" ++ host_path))
  = VCall "aws.iam.get_policy_document.json"
      [VList [VDict
         [("effect", VStr "Allow");
          ("principals", VList [VDict [("type", VStr "Federated");
                                       ("identifiers", VList [VStr (provider ++ "/" ++ host_path)])]]);
          ("actions", VList [VStr "sts:AssumeRoleWithWebIdentity"]);
          ("conditions", VList [VDict
             [("test", VStr "StringEquals");
              ("variable", App.issuer_sub (VStr ("https://" ++ host_path)));
              ("values", VList [VStr "system:serviceaccount:kube-system:cluster-autoscaler"])]])]]].
Proof.
  unfold Eks.autoscaler_assume_policy, App.issuer_sub.
  rewrite (after_first_slash_app _ _ Hp), (Facts.replace_https_prefix _ Hh).
  reflexivity.
Qed.


Lemma autoscaler_trust_matches_app_witness :
  contains "/" "arn:aws:iam::123456789012:oidc-provider" = false
  /\ contains "https://" "oidc.eks.eu-west-1.amazonaws.com/id/ABC" = false
  /\ Eks.autoscaler_assume_policy
       (VStr ("arn:aws:iam::123456789012:oidc-provider" ++ "/" ++ "oidc.eks.eu-west-1.amazonaws.com/id/ABC"))
     = VCall "aws.iam.get_policy_document.json"
      [VList [VDict
         [("effect", VStr "Allow");
          ("principals", VList [VDict [("type", VStr "Federated");
                                       ("identifiers", VList [VStr ("arn:aws:iam::123456789012:oidc-provider" ++ "/" ++ "oidc.eks.eu-west-1.amazonaws.com/id/ABC")])]]);
          ("actions", VList [VStr "sts:AssumeRoleWithWebIdentity"]);
          ("conditions", VList [VDict
             [("test", VStr "StringEquals");
              ("variable", App.issuer_sub (VStr ("https://" ++ "oidc.eks.eu-west-1.amazonaws.com/id/ABC")));
              ("values", VList [VStr "system:serviceaccount:kube-system:cluster-autoscaler"])]])]]].
Proof.
  split; [reflexivity | split; [reflexivity |]].
  apply autoscaler_trust_matches_app; reflexivity.
Defined.



End Extras.
